(** * Tracing without LangChain: a shallow embedding of the notebook

    The notebook [tracing-examples/traceable/tracing_without_langchain.ipynb]
    defines a chat-completion helper [call_openai], three prompt-building
    functions ([argument_generator], [critic], [refiner]) and three variants
    of a chain that composes them.  Every function is decorated with
    [@traceable].  The cells that follow call the chains, attach feedback to
    a run and share a run.

    The Python code is effectful: it reads the clock, calls the
    chat-completion API, draws UUIDs and talks to the tracing backend, and
    any of these may raise.  It is embedded here in a state-and-exception
    monad over an explicit [World]; the external collaborators are the
    fields of an environment [Env]. *)

From Stdlib Require Import String List Arith Lia ZArith NArith PrimFloat.
Import ListNotations.
Local Open Scope string_scope.
Local Open Scope list_scope.

(** ** Data model *)

(** A chat message, the Python dict [{"role": ..., "content": ...}]. *)
Record Message := { role : string; content : string }.

(** The keyword arguments of [openai.ChatCompletion.create]. *)
Record Request := {
  model : string;
  messages : list Message;
  temperature : float }.

(** The part of the chat-completion response that the notebook reads:
    [response.choices[i].message]. *)
Record Choice := { message : Message; finish_reason : string }.
Record Response := { choices : list Choice }.

(** Python values that occur in the notebook's dict literals. *)
Inductive PyVal :=
| PyStr (s : string)
| PyInt (z : Z)
| PyFloat (f : float).

Definition Dict := list (string * PyVal).

(** A run identifier ([uuid.UUID]): a 128-bit number. *)
Definition UUID := N.

(** Exceptions that can reach the notebook. *)
Inductive exn :=
| OpenAIError (msg : string)      (* raised by the chat-completion client *)
| LangSmithError (msg : string)   (* raised by the tracing client *)
| IndexError (msg : string).      (* list index out of range *)

(** The run tree object that [@traceable] creates for a call. *)
Record RunTree := {
  id : UUID;
  name : string;
  run_type : string;
  parent_run_id : option UUID;
  tags : list string;
  metadata : Dict }.

(** What the tracing backend is told. *)
Inductive TraceEvent :=
| RunPosted (run : RunTree)
| RunEnded (run_id : UUID) (error : option exn).

(** The [langsmith_extra] keyword argument accepted by decorated functions. *)
Record LangsmithExtra := {
  extra_tags : list string;
  extra_metadata : Dict;
  extra_run_id : option UUID }.

(** The arguments of [Client.create_feedback]. *)
Record Feedback := {
  fb_run_id : UUID;
  fb_key : string;
  fb_score : option PyVal;
  fb_correction : option Dict;
  fb_source_info : option Dict }.

(** ** The world and the external collaborators *)

Record World := {
  clock : nat;                     (* reads of [datetime.now()] so far *)
  api_calls : list Request;        (* chat-completion requests, oldest first *)
  uuids_drawn : nat;               (* UUIDs generated so far *)
  run_stack : list RunTree;        (* open runs, innermost first *)
  trace_log : list TraceEvent;     (* events sent to the tracing backend *)
  feedback_log : list Feedback;    (* feedback attached, oldest first *)
  shared_runs : list UUID;         (* runs shared, oldest first *)
  raised : list exn }.             (* every exception raised so far *)

Record Env := {
  (* [str(datetime.now())] at the n-th read of the clock *)
  now : nat -> string;
  (* [openai.ChatCompletion.create], given the requests made before *)
  create : list Request -> Request -> exn + Response;
  (* the n-th identifier produced by [uuid4()] *)
  uuid4_at : nat -> UUID;
  (* the tracing client opening a run: [Some e] when it raises [e] *)
  post_run : list TraceEvent -> RunTree -> option exn;
  (* the tracing client storing feedback *)
  post_feedback : list Feedback -> Feedback -> option exn;
  (* the public link of a run *)
  share_link : UUID -> exn + string }.

Definition set_clock (n : nat) (w : World) : World :=
  {| clock := n; api_calls := api_calls w; uuids_drawn := uuids_drawn w;
     run_stack := run_stack w; trace_log := trace_log w;
     feedback_log := feedback_log w; shared_runs := shared_runs w;
     raised := raised w |}.

Definition set_api_calls (l : list Request) (w : World) : World :=
  {| clock := clock w; api_calls := l; uuids_drawn := uuids_drawn w;
     run_stack := run_stack w; trace_log := trace_log w;
     feedback_log := feedback_log w; shared_runs := shared_runs w;
     raised := raised w |}.

Definition set_uuids_drawn (n : nat) (w : World) : World :=
  {| clock := clock w; api_calls := api_calls w; uuids_drawn := n;
     run_stack := run_stack w; trace_log := trace_log w;
     feedback_log := feedback_log w; shared_runs := shared_runs w;
     raised := raised w |}.

Definition set_run_stack (l : list RunTree) (w : World) : World :=
  {| clock := clock w; api_calls := api_calls w; uuids_drawn := uuids_drawn w;
     run_stack := l; trace_log := trace_log w;
     feedback_log := feedback_log w; shared_runs := shared_runs w;
     raised := raised w |}.

Definition set_trace_log (l : list TraceEvent) (w : World) : World :=
  {| clock := clock w; api_calls := api_calls w; uuids_drawn := uuids_drawn w;
     run_stack := run_stack w; trace_log := l;
     feedback_log := feedback_log w; shared_runs := shared_runs w;
     raised := raised w |}.

Definition set_feedback_log (l : list Feedback) (w : World) : World :=
  {| clock := clock w; api_calls := api_calls w; uuids_drawn := uuids_drawn w;
     run_stack := run_stack w; trace_log := trace_log w;
     feedback_log := l; shared_runs := shared_runs w;
     raised := raised w |}.

Definition set_shared_runs (l : list UUID) (w : World) : World :=
  {| clock := clock w; api_calls := api_calls w; uuids_drawn := uuids_drawn w;
     run_stack := run_stack w; trace_log := trace_log w;
     feedback_log := feedback_log w; shared_runs := l;
     raised := raised w |}.

Definition set_raised (l : list exn) (w : World) : World :=
  {| clock := clock w; api_calls := api_calls w; uuids_drawn := uuids_drawn w;
     run_stack := run_stack w; trace_log := trace_log w;
     feedback_log := feedback_log w; shared_runs := shared_runs w;
     raised := l |}.

Definition initial_world : World :=
  {| clock := 0; api_calls := []; uuids_drawn := 0; run_stack := [];
     trace_log := []; feedback_log := []; shared_runs := []; raised := [] |}.

(** ** The monad of notebook computations

    A computation takes the world and gives back either the exception it
    raised or its value, together with the world it left behind: what a
    Python call did before raising stays done. *)

Definition M (A : Type) : Type := World -> (exn + A) * World.

Definition ret {A} (a : A) : M A := fun w => (inr a, w).

Definition bind {A B} (m : M A) (k : A -> M B) : M B :=
  fun w =>
    match m w with
    | (inl e, w') => (inl e, w')
    | (inr a, w') => k a w'
    end.

(** [raise e]: the exception is noted in [raised] where it originates. *)
Definition raise {A} (e : exn) : M A :=
  fun w => (inl e, set_raised (raised w ++ [e]) w).

(** The outcome of an external call: a value, or an exception to raise. *)
Definition lift_result {A} (r : exn + A) : M A :=
  match r with
  | inl e => raise e
  | inr a => ret a
  end.

Declare Scope py_scope.
Delimit Scope py_scope with py.
Notation "x <- m ;; k" := (bind m (fun x => k))
  (at level 61, m at next level, right associativity) : py_scope.
Local Open Scope py_scope.

(** [l[i]] on a Python list. *)
Definition getitem {A} (l : list A) (i : nat) : M A :=
  match nth_error l i with
  | Some x => ret x
  | None => raise (IndexError "list index out of range")
  end.

(** The escape [\n] of a Python string literal. *)
Definition newline : string := String (Ascii.ascii_of_nat 10) EmptyString.

Definition default_model : string := "gpt-3.5-turbo".
Definition default_temperature : float := 0%float.

Section Notebook.

Variable env : Env.

(** *** External calls *)

(** [f"{datetime.now()}"]: one read of the clock. *)
Definition datetime_now : M string :=
  fun w => (inr (now env (clock w)), set_clock (S (clock w)) w).

(** [openai.ChatCompletion.create(model=..., messages=..., temperature=...)].
    The request is sent whatever the outcome. *)
Definition ChatCompletion_create (req : Request) : M Response :=
  fun w =>
    lift_result (create env (api_calls w) req)
                (set_api_calls (api_calls w ++ [req]) w).

(** [uuid4()]. *)
Definition uuid4 : M UUID :=
  fun w => (inr (uuid4_at env (uuids_drawn w)),
            set_uuids_drawn (S (uuids_drawn w)) w).

(** Modelled from the spec: the run identifier asked for through
    [langsmith_extra] of the external tracing SDK's decorator, if any. *)
Definition requested_id (langsmith_extra : option LangsmithExtra)
    : option UUID :=
  match langsmith_extra with
  | Some x => extra_run_id x
  | None => None
  end.

(** Modelled from the spec: how the external tracing SDK's decorator makes
    the run tree of a call.  The identifier is the requested one or a fresh
    one; the parent is the innermost open run; tags and metadata are those of
    the decorator followed by those of [langsmith_extra]. *)
Definition setup_run (rtype fname : string) (dtags : list string)
    (dmeta : Dict) (langsmith_extra : option LangsmithExtra) (w : World)
    : RunTree * World :=
  let '(rid, w1) :=
    match requested_id langsmith_extra with
    | Some u => (u, w)
    | None => (uuid4_at env (uuids_drawn w),
               set_uuids_drawn (S (uuids_drawn w)) w)
    end in
  ({| id := rid; name := fname; run_type := rtype;
      parent_run_id := option_map id (hd_error (run_stack w));
      tags := dtags ++ match langsmith_extra with
                       | Some x => extra_tags x
                       | None => []
                       end;
      metadata := dmeta ++ match langsmith_extra with
                           | Some x => extra_metadata x
                           | None => []
                           end |}, w1).

(** The error reported for an outcome, if it is one. *)
Definition error_of {A} (r : exn + A) : option exn :=
  match r with
  | inl e => Some e
  | inr _ => None
  end.

(** Modelled from the spec: the [@traceable] decorator belongs to the
    external tracing SDK, which is not part of the notebook.  Following the
    notebook's description of it, a call of a decorated function creates a
    run tree (with the requested identifier when [langsmith_extra] gives
    one, a fresh one otherwise), inserts it in the current trace below the
    innermost open run, reports it, calls the function with the run tree
    available for injection, reports the outcome (a result or an error), and
    hands that outcome on to the caller.  The payloads (inputs, outputs,
    times) that the SDK also streams are left out. *)
Definition traceable {A} (rtype fname : string) (dtags : list string)
    (dmeta : Dict) (langsmith_extra : option LangsmithExtra)
    (func : RunTree -> M A) : M A :=
  fun w =>
    let '(new_run, w1) :=
      setup_run rtype fname dtags dmeta langsmith_extra w in
    match post_run env (trace_log w1) new_run with
    | Some e => raise e w1
    | None =>
        let w2 := set_run_stack (new_run :: run_stack w1)
                    (set_trace_log (trace_log w1 ++ [RunPosted new_run]) w1) in
        let '(r, w3) := func new_run w2 in
        (r, set_run_stack (run_stack w)
              (set_trace_log
                 (trace_log w3 ++ [RunEnded (id new_run) (error_of r)]) w3))
    end.

(** [Client.create_feedback(run_id, key, score=..., correction=...,
    source_info=...)]. *)
Definition create_feedback (run_id : UUID) (key : string)
    (score : option PyVal) (correction source_info : option Dict)
    : M Feedback :=
  fun w =>
    let fb := {| fb_run_id := run_id; fb_key := key; fb_score := score;
                 fb_correction := correction;
                 fb_source_info := source_info |} in
    match post_feedback env (feedback_log w) fb with
    | Some e => raise e w
    | None => (inr fb, set_feedback_log (feedback_log w ++ [fb]) w)
    end.

(** [Client.share_run(run_id)]. *)
Definition share_run (run_id : UUID) : M string :=
  fun w =>
    match share_link env run_id with
    | inl e => raise e w
    | inr url => (inr url, set_shared_runs (shared_runs w ++ [run_id]) w)
    end.

(** *** Cell 6: the chat application *)

(** [@traceable(run_type="llm") def call_openai(data, model="gpt-3.5-turbo",
    temperature=0.0)] *)
Definition call_openai (data : list Message) (model : string)
    (temperature : float) (langsmith_extra : option LangsmithExtra)
    : M string :=
  traceable "llm" "call_openai" [] [] langsmith_extra (fun _ =>
    response <- ChatCompletion_create
                  {| model := model; messages := data;
                     temperature := temperature |} ;;
    choice <- getitem (choices response) 0 ;;
    ret (content (message choice))).

(** [@traceable(run_type="chain") def argument_generator(query,
    additional_description="")] *)
Definition argument_generator (query additional_description : string)
    (langsmith_extra : option LangsmithExtra) : M string :=
  traceable "chain" "argument_generator" [] [] langsmith_extra (fun _ =>
    t <- datetime_now ;;
    call_openai
      [ {| role := "system";
           content := "You are a debater making an argument on a topic."
                      ++ additional_description
                      ++ " The current time is " ++ t |};
        {| role := "user";
           content := "The discussion topic is " ++ query |} ]
      default_model default_temperature None).

(** [@traceable(run_type="chain") def critic(argument)] *)
Definition critic (argument : string)
    (langsmith_extra : option LangsmithExtra) : M string :=
  traceable "chain" "critic" [] [] langsmith_extra (fun _ =>
    call_openai
      [ {| role := "system";
           content := "You are a critic."
                      ++ newline ++ "What unresolved questions or criticism do you have after reading the following argument?"
                      ++ "Provide a concise summary of your feedback." |};
        {| role := "system"; content := argument |} ]
      default_model default_temperature None).

(** [@traceable(run_type="chain") def refiner(query, additional_description,
    current_arg, criticism)] *)
Definition refiner (query additional_description current_arg criticism : string)
    (langsmith_extra : option LangsmithExtra) : M string :=
  traceable "chain" "refiner" [] [] langsmith_extra (fun _ =>
    t <- datetime_now ;;
    call_openai
      [ {| role := "system";
           content := "You are a debater making an argument on a topic."
                      ++ additional_description
                      ++ " The current time is " ++ t |};
        {| role := "user";
           content := "The discussion topic is " ++ query |};
        {| role := "assistant"; content := current_arg |};
        {| role := "user"; content := criticism |};
        {| role := "system";
           content := "Please generate a new argument that incorporates the feedback from the user." |} ]
      default_model default_temperature None).

(** [@traceable(run_type="chain") def argument_chain(query,
    additional_description="")] *)
Definition argument_chain (query additional_description : string)
    (langsmith_extra : option LangsmithExtra) : M string :=
  traceable "chain" "argument_chain" [] [] langsmith_extra (fun _ =>
    argument <- argument_generator query additional_description None ;;
    criticism <- critic argument None ;;
    refiner query additional_description argument criticism None).

(** *** Cell 10: the chain that also returns its run identifier *)

(** [@traceable(run_type="chain") def argument_chain2(query, *,
    additional_description="", run_tree)] *)
Definition argument_chain2 (query additional_description : string)
    (langsmith_extra : option LangsmithExtra) : M (string * UUID) :=
  traceable "chain" "argument_chain2" [] [] langsmith_extra (fun run_tree =>
    argument <- argument_generator query additional_description None ;;
    criticism <- critic argument None ;;
    refined_argument <- refiner query additional_description argument
                          criticism None ;;
    ret (refined_argument, id run_tree)).

(** *** Cell 18: the chain with a name, tags and metadata *)

(** [@traceable(run_type="chain", name="My Argument Chain",
    tags=["tutorial"], metadata={"githash": "e38f04c83"})
    def argument_chain_3(query, additional_description="")] *)
Definition argument_chain_3 (query additional_description : string)
    (langsmith_extra : option LangsmithExtra) : M string :=
  traceable "chain" "My Argument Chain" ["tutorial"]
    [("githash", PyStr "e38f04c83")] langsmith_extra (fun _ =>
    argument <- argument_generator query additional_description None ;;
    criticism <- critic argument None ;;
    refiner query additional_description argument criticism None).

(** *** The cells that run the application *)

Definition sunshine_query : string := "Whether sunshine is good for you.".
Definition sunshine_description : string :=
  "Provide a concise, few sentence argument on why sunshine is good for you.".

(** Cell 8: [result = argument_chain(...)]. *)
Definition cell_8 : M string :=
  argument_chain sunshine_query sunshine_description None.

(** Cell 11: [result, run_id = argument_chain2(...)]. *)
Definition cell_11 : M (string * UUID) :=
  argument_chain2 sunshine_query sunshine_description None.

(** Cell 14: [client.create_feedback(run_id, "user_feedback", score=0.5,
    correction={"generation": "Sunshine is nice. Full stop."})]. *)
Definition cell_14 (run_id : UUID) : M Feedback :=
  create_feedback run_id "user_feedback" (Some (PyFloat 0.5%float))
    (Some [("generation", PyStr "Sunshine is nice. Full stop.")]) None.

(** Cell 15: [shared_link = client.share_run(run_id)]. *)
Definition cell_15 (run_id : UUID) : M string :=
  share_run run_id.

(** Cell 20: [requested_uuid = uuid4()], then the chain called with
    [langsmith_extra] asking for that identifier. *)
Definition cell_20 : M (UUID * string) :=
  requested_uuid <- uuid4 ;;
  result <- argument_chain_3 sunshine_query sunshine_description
              (Some {| extra_tags := ["another-tag"];
                       extra_metadata := [("another-key", PyInt 1)];
                       extra_run_id := Some requested_uuid |}) ;;
  ret (requested_uuid, result).

(** Cell 21: [client.create_feedback(requested_uuid, "user_feedback",
    score=1, source_info={"origin": "example notebook"})]. *)
Definition cell_21 (requested_uuid : UUID) : M Feedback :=
  create_feedback requested_uuid "user_feedback" (Some (PyInt 1)) None
    (Some [("origin", PyStr "example notebook")]).

(** Cells 11, 14 and 15 in sequence, with the notebook's variables
    [result], [run_id] and [shared_link]. *)
Definition feedback_session : M (string * UUID * string) :=
  p <- cell_11 ;;
  _fb <- cell_14 (snd p) ;;
  shared_link <- cell_15 (snd p) ;;
  ret (fst p, snd p, shared_link).

(** Cells 20 and 21 in sequence. *)
Definition requested_id_session : M (UUID * string) :=
  p <- cell_20 ;;
  _fb <- cell_21 (fst p) ;;
  ret p.

End Notebook.

(** ** Sample environments

    [demo_env] answers every request, the n-th one with the n-th canned
    reply; tracing, feedback and sharing succeed. *)

Definition reply (s : string) : Response :=
  {| choices := [ {| message := {| role := "assistant"; content := s |};
                     finish_reason := "stop" |} ] |}.

Definition demo_now (n : nat) : string :=
  match n with
  | 0 => "2023-09-01 10:00:00.000001"
  | 1 => "2023-09-01 10:00:07.000002"
  | _ => "2023-09-01 10:01:00.000003"
  end.

Definition demo_create (h : list Request) (_ : Request) : exn + Response :=
  match length h with
  | 0 => inr (reply "Sunshine helps the body make vitamin D.")
  | 1 => inr (reply "What about the risk of sunburn?")
  | _ => inr (reply "In moderation, sunshine helps the body make vitamin D.")
  end.

Definition demo_env : Env :=
  {| now := demo_now;
     create := demo_create;
     uuid4_at := fun n => (1000 + N.of_nat n)%N;
     post_run := fun _ _ => None;
     post_feedback := fun _ _ => None;
     share_link := fun _ => inr "https://smith.langchain.com/public/r" |}.

(** [critic_down_env]: the chat-completion service fails on the second
    request, the one [critic] makes. *)
Definition critic_down_env : Env :=
  {| now := demo_now;
     create := fun h r =>
       match length h with
       | 1 => inl (OpenAIError "service unavailable")
       | _ => demo_create h r
       end;
     uuid4_at := uuid4_at demo_env;
     post_run := post_run demo_env;
     post_feedback := post_feedback demo_env;
     share_link := share_link demo_env |}.

(** [tracer_down_env]: the tracing client raises whenever a run is opened. *)
Definition tracer_down_env : Env :=
  {| now := demo_now;
     create := demo_create;
     uuid4_at := uuid4_at demo_env;
     post_run := fun _ _ => Some (LangSmithError "connection refused");
     post_feedback := post_feedback demo_env;
     share_link := share_link demo_env |}.

(** [no_choice_env]: the service answers with an empty list of choices. *)
Definition no_choice_env : Env :=
  {| now := demo_now;
     create := fun _ _ => inr {| choices := [] |};
     uuid4_at := uuid4_at demo_env;
     post_run := post_run demo_env;
     post_feedback := post_feedback demo_env;
     share_link := share_link demo_env |}.

(** ** Exceptions are never swallowed

    [raised] grows by one entry each time an exception originates (an
    external call or a list index raising).  A computation is [faithful]
    when, from every world, its outcome tells exactly what was raised while
    it ran: nothing if it returned a value, and the one exception it ends
    with otherwise.  A handler that recovered, retried or replaced the
    exception would break this. *)

Definition raised_by {A} (r : exn + A) : list exn :=
  match r with
  | inl e => [e]
  | inr _ => []
  end.

Definition faithful {A} (m : M A) : Prop :=
  forall w, raised (snd (m w)) = raised w ++ raised_by (fst (m w)).


(** ** What is sent to the chat-completion service

    [emits P m]: from every world, [m] only adds requests to the log of
    chat-completion calls, and every request it adds satisfies [P]. *)

Definition emits (P : Request -> Prop) {A} (m : M A) : Prop :=
  forall w, exists new,
    api_calls (snd (m w)) = api_calls w ++ new /\ Forall P new.

(** The role labels of the chat-completion API that the notebook uses. *)
Definition role_labels : list string := ["system"; "user"; "assistant"].

Definition well_formed_message (m : Message) : Prop := In (role m) role_labels.

Definition well_formed_request (req : Request) : Prop :=
  Forall well_formed_message (messages req).

Definition default_parameters (req : Request) : Prop :=
  model req = "gpt-3.5-turbo" /\ temperature req = 0%float.

(** ** Reference readings used in the statements

    [tracing_ok]: the tracing client never raises when a run is opened (the
    notebook describes the reporting as done on a background thread). *)

Definition tracing_ok (env : Env) : Prop :=
  forall log rt, post_run env log rt = None.

(** [response.choices[0].message.content], or the exception instead. *)
Definition completion (r : exn + Response) : exn + string :=
  match r with
  | inl e => inl e
  | inr resp =>
      match choices resp with
      | c :: _ => inr (content (message c))
      | [] => inl (IndexError "list index out of range")
      end
  end.

(** A request with the default model and temperature. *)
Definition chat_request (msgs : list Message) : Request :=
  {| model := "gpt-3.5-turbo"; messages := msgs; temperature := 0%float |}.

(** The three prompts, as functions of the strings put into them; [t] is the
    time read from the clock. *)
Definition generator_prompt (t query additional_description : string)
    : list Message :=
  [ {| role := "system";
       content := "You are a debater making an argument on a topic."
                  ++ additional_description
                  ++ " The current time is " ++ t |};
    {| role := "user"; content := "The discussion topic is " ++ query |} ].

Definition critic_prompt (argument : string) : list Message :=
  [ {| role := "system";
       content := "You are a critic." ++ newline
                  ++ "What unresolved questions or criticism do you have after reading the following argument?"
                  ++ "Provide a concise summary of your feedback." |};
    {| role := "system"; content := argument |} ].

Definition refiner_prompt
    (t query additional_description current_arg criticism : string)
    : list Message :=
  [ {| role := "system";
       content := "You are a debater making an argument on a topic."
                  ++ additional_description
                  ++ " The current time is " ++ t |};
    {| role := "user"; content := "The discussion topic is " ++ query |};
    {| role := "assistant"; content := current_arg |};
    {| role := "user"; content := criticism |};
    {| role := "system";
       content := "Please generate a new argument that incorporates the feedback from the user." |} ].

(** The world after a call that read the clock [ticks] times, sent [reqs],
    drew [ids] identifiers and reported [events], and left the rest alone. *)
Definition advance (ticks : nat) (reqs : list Request) (ids : nat)
    (events : list TraceEvent) (w : World) : World :=
  {| clock := clock w + ticks;
     api_calls := api_calls w ++ reqs;
     uuids_drawn := uuids_drawn w + ids;
     run_stack := run_stack w;
     trace_log := trace_log w ++ events;
     feedback_log := feedback_log w;
     shared_runs := shared_runs w;
     raised := raised w |}.

(** The events of a run that ended normally, around those of its children. *)
Definition span (rt : RunTree) (inner : list TraceEvent) : list TraceEvent :=
  RunPosted rt :: inner ++ [RunEnded (id rt) None].

(** The identifier of the innermost open run, if any. *)
Definition current_run (w : World) : option UUID :=
  option_map id (hd_error (run_stack w)).

(** How many identifiers the decorator draws for a call. *)
Definition fresh_ids (langsmith_extra : option LangsmithExtra) : nat :=
  match requested_id langsmith_extra with
  | Some _ => 0
  | None => 1
  end.

(** The run of an undecorated-by-extra call: the [n]-th fresh identifier,
    no tags, no metadata. *)
Definition child_run (env : Env) (rtype fname : string)
    (parent : option UUID) (n : nat) : RunTree :=
  {| id := uuid4_at env n; name := fname; run_type := rtype;
     parent_run_id := parent; tags := []; metadata := [] |}.

(** The events of one prompt-building function: its run, and inside it the
    run of the [call_openai] it makes. *)
Definition wrapper_events (env : Env) (fname : string)
    (parent : option UUID) (n : nat) : list TraceEvent :=
  span (child_run env "chain" fname parent n)
       (span (child_run env "llm" "call_openai" (Some (uuid4_at env n)) (S n))
             []).

(** The events of a chain whose own run is [root], its children drawing
    identifiers from the [n]-th on: generator, critic, refiner, in order. *)
Definition chain_events (env : Env) (root : RunTree) (n : nat)
    : list TraceEvent :=
  span root
    (wrapper_events env "argument_generator" (Some (id root)) n
     ++ wrapper_events env "critic" (Some (id root)) (n + 2)
     ++ wrapper_events env "refiner" (Some (id root)) (n + 4)).

(** The world in which the body of a decorated function starts. *)
Definition enter (rt : RunTree) (w1 : World) : World :=
  set_run_stack (rt :: run_stack w1)
    (set_trace_log (trace_log w1 ++ [RunPosted rt]) w1).

(** ** The application with the decorators taken off

    What each function computes from the clock and the chat-completion
    service alone: [Ext] is the part of the world these two make up, and a
    [Plain] computation runs on it. *)

Definition Ext : Type := nat * list Request.

Definition ext (w : World) : Ext := (clock w, api_calls w).

Definition Plain (A : Type) : Type := Ext -> (exn + A) * Ext.

Definition plain_ret {A} (a : A) : Plain A := fun x => (inr a, x).

Definition plain_bind {A B} (f : Plain A) (g : A -> Plain B) : Plain B :=
  fun x =>
    match f x with
    | (inl e, x') => (inl e, x')
    | (inr a, x') => g a x'
    end.

(** [agrees m f]: seen through the clock and the request log, [m] does what
    [f] does, value or exception included. *)
Definition agrees {A} (m : M A) (f : Plain A) : Prop :=
  forall w, (fst (m w), ext (snd (m w))) = f (ext w).

Section PlainApplication.

Variable env : Env.

(** Send one request and take the completion out of the answer. *)
Definition ask (req : Request) : Plain string :=
  fun x => (completion (create env (snd x) req), (fst x, snd x ++ [req])).

Definition plain_generator (query additional_description : string)
    : Plain string :=
  fun x =>
    ask (chat_request
           (generator_prompt (now env (fst x)) query additional_description))
        (S (fst x), snd x).

Definition plain_critic (argument : string) : Plain string :=
  ask (chat_request (critic_prompt argument)).

Definition plain_refiner
    (query additional_description current_arg criticism : string)
    : Plain string :=
  fun x =>
    ask (chat_request
           (refiner_prompt (now env (fst x)) query additional_description
              current_arg criticism))
        (S (fst x), snd x).

(** Generator, then critic on its argument, then refiner on both. *)
Definition plain_chain (query additional_description : string)
    : Plain string :=
  plain_bind (plain_generator query additional_description) (fun argument =>
  plain_bind (plain_critic argument) (fun criticism =>
  plain_refiner query additional_description argument criticism)).

End PlainApplication.

(** The value of a pair-returning call with the run identifier dropped. *)
Definition first_component {A B} (r : exn + A * B) : exn + A :=
  match r with
  | inl e => inl e
  | inr p => inr (fst p)
  end.

(** A refined argument paired with a run identifier, as [argument_chain2]
    returns it; an exception stays as it is. *)
Definition with_id (u : UUID) (r : exn + string) : exn + string * UUID :=
  match r with
  | inl e => inl e
  | inr s => inr (s, u)
  end.

(** [service_down_env]: the chat-completion service refuses every request. *)
Definition service_down_env : Env :=
  {| now := demo_now;
     create := fun _ _ => inl (OpenAIError "service unavailable");
     uuid4_at := uuid4_at demo_env;
     post_run := post_run demo_env;
     post_feedback := post_feedback demo_env;
     share_link := share_link demo_env |}.

(** [refiner_down_env]: the service fails on the third request, the one
    [refiner] makes. *)
Definition refiner_down_env : Env :=
  {| now := demo_now;
     create := fun h r =>
       match length h with
       | 2 => inl (OpenAIError "rate limit reached")
       | _ => demo_create h r
       end;
     uuid4_at := uuid4_at demo_env;
     post_run := post_run demo_env;
     post_feedback := post_feedback demo_env;
     share_link := share_link demo_env |}.

(** ** What a call may cost and what it leaves alone

    [costs reqs ticks m]: from every world, [m] adds at most [reqs] requests
    to the log of chat-completion calls, keeps the ones already there, and
    reads the clock at most [ticks] times. *)

Definition costs (reqs ticks : nat) {A} (m : M A) : Prop :=
  forall w, exists new,
    api_calls (snd (m w)) = api_calls w ++ new /\
    length new <= reqs /\
    clock w <= clock (snd (m w)) <= clock w + ticks.

(** [keeps_client_state m]: [m] attaches no feedback and shares no run. *)
Definition keeps_client_state {A} (m : M A) : Prop :=
  forall w,
    feedback_log (snd (m w)) = feedback_log w /\
    shared_runs (snd (m w)) = shared_runs w.

(** [stops_with e ticks reqs w out]: the outcome [out] of a call started in
    [w] is the exception [e], after [ticks] reads of the clock and the
    requests [reqs]. *)
Definition stops_with {A} (e : exn) (ticks : nat) (reqs : list Request)
    (w : World) (out : (exn + A) * World) : Prop :=
  fst out = inl e /\
  clock (snd out) = clock w + ticks /\
  api_calls (snd out) = api_calls w ++ reqs.

(** Two outcomes that end the same way (same value or same exception) and
    leave the same clock and the same requests. *)
Definition same_outcome {A} (o1 o2 : (exn + A) * World) : Prop :=
  fst o1 = fst o2 /\ ext (snd o1) = ext (snd o2).

(** ** Exceptions are never swallowed: proofs *)

Lemma faithful_ret {A} (a : A) : faithful (ret a).
Proof. intro w. cbn. now rewrite app_nil_r. Qed.

Lemma faithful_raise {A} (e : exn) : faithful (@raise A e).
Proof. intro w. reflexivity. Qed.

Lemma faithful_lift_result {A} (r : exn + A) : faithful (lift_result r).
Proof. destruct r; [apply faithful_raise | apply faithful_ret]. Qed.

Lemma faithful_bind {A B} (m : M A) (k : A -> M B) :
  faithful m -> (forall a, faithful (k a)) -> faithful (bind m k).
Proof.
  intros Hm Hk w. unfold bind.
  specialize (Hm w). destruct (m w) as [[e | a] w1]; cbn in *.
  - exact Hm.
  - rewrite (Hk a w1), Hm. cbn. now rewrite app_nil_r.
Qed.

Lemma faithful_getitem {A} (l : list A) (i : nat) : faithful (getitem l i).
Proof.
  unfold getitem. destruct (nth_error l i);
    [apply faithful_ret | apply faithful_raise].
Qed.

Section Faithful.

Variable env : Env.

Lemma faithful_datetime_now : faithful (datetime_now env).
Proof. intro w. cbn. now rewrite app_nil_r. Qed.

Lemma faithful_uuid4 : faithful (uuid4 env).
Proof. intro w. cbn. now rewrite app_nil_r. Qed.

Lemma faithful_create (req : Request) : faithful (ChatCompletion_create env req).
Proof.
  intro w. unfold ChatCompletion_create.
  now rewrite (faithful_lift_result _ (set_api_calls _ w)).
Qed.

Lemma raised_setup_run rtype fname dtags dmeta ex w :
  raised (snd (setup_run env rtype fname dtags dmeta ex w)) = raised w.
Proof. unfold setup_run. now destruct (requested_id ex). Qed.

Lemma faithful_traceable {A} rtype fname dtags dmeta ex (func : RunTree -> M A) :
  (forall rt, faithful (func rt)) ->
  faithful (traceable env rtype fname dtags dmeta ex func).
Proof.
  intros Hf w. unfold traceable.
  pose proof (raised_setup_run rtype fname dtags dmeta ex w) as Hs.
  destruct (setup_run env rtype fname dtags dmeta ex w) as [rt w1].
  cbn in Hs.
  destruct (post_run env (trace_log w1) rt) as [e | ].
  - cbn. now rewrite Hs.
  - match goal with |- context [func rt ?w2] =>
      specialize (Hf rt w2); destruct (func rt w2) as [r w3] end.
    cbn in *. now rewrite Hf, Hs.
Qed.

Lemma faithful_create_feedback run_id key score corr src :
  faithful (create_feedback env run_id key score corr src).
Proof.
  intro w. unfold create_feedback.
  destruct (post_feedback env _ _); cbn; [reflexivity | now rewrite app_nil_r].
Qed.

Lemma faithful_share_run run_id : faithful (share_run env run_id).
Proof.
  intro w. unfold share_run.
  destruct (share_link env run_id); cbn; [reflexivity | now rewrite app_nil_r].
Qed.

End Faithful.

Create HintDb faithful.
#[export] Hint Resolve faithful_ret faithful_raise faithful_bind
  faithful_getitem faithful_datetime_now faithful_uuid4 faithful_create
  faithful_traceable faithful_create_feedback faithful_share_run : faithful.

Section FaithfulNotebook.

Variable env : Env.

Lemma faithful_call_openai data m t ex : faithful (call_openai env data m t ex).
Proof. unfold call_openai. auto with faithful. Qed.

Hint Resolve faithful_call_openai : faithful.

Lemma faithful_argument_generator q d ex :
  faithful (argument_generator env q d ex).
Proof. unfold argument_generator. auto with faithful. Qed.

Lemma faithful_critic a ex : faithful (critic env a ex).
Proof. unfold critic. auto with faithful. Qed.

Lemma faithful_refiner q d a c ex : faithful (refiner env q d a c ex).
Proof. unfold refiner. auto with faithful. Qed.

Hint Resolve faithful_argument_generator faithful_critic faithful_refiner
  : faithful.

Lemma faithful_argument_chain q d ex : faithful (argument_chain env q d ex).
Proof. unfold argument_chain. auto with faithful. Qed.

Lemma faithful_argument_chain2 q d ex : faithful (argument_chain2 env q d ex).
Proof. unfold argument_chain2. auto 7 with faithful. Qed.

Lemma faithful_argument_chain_3 q d ex : faithful (argument_chain_3 env q d ex).
Proof. unfold argument_chain_3. auto with faithful. Qed.

Hint Resolve faithful_argument_chain2 faithful_argument_chain_3 : faithful.

Lemma faithful_feedback_session : faithful (feedback_session env).
Proof.
  unfold feedback_session, cell_11, cell_14, cell_15. auto 7 with faithful.
Qed.

Lemma faithful_requested_id_session : faithful (requested_id_session env).
Proof.
  unfold requested_id_session, cell_20, cell_21. auto 7 with faithful.
Qed.

End FaithfulNotebook.

(** C3: an exception raised by the chat-completion call, by the tracing
    client or by indexing the response, during [call_openai],
    [argument_generator], [critic], [refiner] or any of the three chains
    (and during the cells that attach feedback and share a run), reaches the
    caller unchanged.  Whatever the arguments and the world, the exceptions
    raised while the function ran are exactly: none when it returned a
    value, and the single exception it ends with otherwise; so nothing is
    caught, replaced, retried or recovered from. *)
Theorem errors_propagate_unchanged (env : Env) :
  (forall data m t ex, faithful (call_openai env data m t ex)) /\
  (forall q d ex, faithful (argument_generator env q d ex)) /\
  (forall a ex, faithful (critic env a ex)) /\
  (forall q d a c ex, faithful (refiner env q d a c ex)) /\
  (forall q d ex, faithful (argument_chain env q d ex)) /\
  (forall q d ex, faithful (argument_chain2 env q d ex)) /\
  (forall q d ex, faithful (argument_chain_3 env q d ex)) /\
  faithful (feedback_session env) /\
  faithful (requested_id_session env).
Proof.
  repeat split; intros.
  - apply faithful_call_openai.
  - apply faithful_argument_generator.
  - apply faithful_critic.
  - apply faithful_refiner.
  - apply faithful_argument_chain.
  - apply faithful_argument_chain2.
  - apply faithful_argument_chain_3.
  - apply faithful_feedback_session.
  - apply faithful_requested_id_session.
Qed.

(** The service failing under [critic]: the chain ends with that very
    exception, after two requests, and [refiner] is never reached. *)
Example critic_failure_surfaces :
  let out := cell_8 critic_down_env initial_world in
  fst out = inl (OpenAIError "service unavailable") /\
  raised (snd out) = [OpenAIError "service unavailable"] /\
  length (api_calls (snd out)) = 2.
Proof. vm_compute. repeat split. Qed.

(** The tracing client failing when the chain's run is opened. *)
Example tracer_failure_surfaces :
  let out := cell_8 tracer_down_env initial_world in
  fst out = inl (LangSmithError "connection refused") /\
  api_calls (snd out) = [].
Proof. vm_compute. repeat split. Qed.

(** A response without choices: the index error of [choices[0]]. *)
Example empty_choices_surface :
  fst (cell_8 no_choice_env initial_world)
  = inl (IndexError "list index out of range").
Proof. reflexivity. Qed.

(** ** Requests: roles and parameters *)

Section Emits.

Variable P : Request -> Prop.

Lemma emits_ret {A} (a : A) : emits P (ret a).
Proof. intro w. exists []. cbn. now rewrite app_nil_r. Qed.

Lemma emits_raise {A} (e : exn) : emits P (@raise A e).
Proof. intro w. exists []. cbn. now rewrite app_nil_r. Qed.

Lemma emits_bind {A B} (m : M A) (k : A -> M B) :
  emits P m -> (forall a, emits P (k a)) -> emits P (bind m k).
Proof.
  intros Hm Hk w. unfold bind.
  destruct (Hm w) as (l1 & E1 & F1).
  destruct (m w) as [[e | a] w1]; cbn in *.
  - now exists l1.
  - destruct (Hk a w1) as (l2 & E2 & F2).
    exists (l1 ++ l2). rewrite E2, E1, app_assoc. split; [reflexivity | ].
    apply Forall_app; now split.
Qed.

Lemma emits_getitem {A} (l : list A) (i : nat) : emits P (getitem l i).
Proof.
  unfold getitem. destruct (nth_error l i); [apply emits_ret | apply emits_raise].
Qed.

Variable env : Env.

Lemma emits_datetime_now : emits P (datetime_now env).
Proof. intro w. exists []. cbn. now rewrite app_nil_r. Qed.

Lemma emits_create (req : Request) :
  P req -> emits P (ChatCompletion_create env req).
Proof.
  intros HP w. exists [req]. unfold ChatCompletion_create.
  split; [ | now constructor].
  now destruct (create env (api_calls w) req).
Qed.

Lemma api_calls_setup_run rtype fname dtags dmeta ex w :
  api_calls (snd (setup_run env rtype fname dtags dmeta ex w)) = api_calls w.
Proof. unfold setup_run. now destruct (requested_id ex). Qed.

Lemma emits_traceable {A} rtype fname dtags dmeta ex (func : RunTree -> M A) :
  (forall rt, emits P (func rt)) ->
  emits P (traceable env rtype fname dtags dmeta ex func).
Proof.
  intros Hf w. unfold traceable.
  pose proof (api_calls_setup_run rtype fname dtags dmeta ex w) as Hs.
  destruct (setup_run env rtype fname dtags dmeta ex w) as [rt w1].
  cbn in Hs.
  destruct (post_run env (trace_log w1) rt) as [e | ].
  - exists []. cbn. now rewrite Hs, app_nil_r.
  - match goal with |- context [func rt ?w2] =>
      destruct (Hf rt w2) as (l & E & F); destruct (func rt w2) as [r w3] end.
    exists l. cbn in *. now rewrite E, Hs.
Qed.

Lemma emits_call_openai data m t ex :
  P {| model := m; messages := data; temperature := t |} ->
  emits P (call_openai env data m t ex).
Proof.
  intros HP. apply emits_traceable; intros _.
  apply emits_bind; [now apply emits_create | intro resp].
  apply emits_bind; [apply emits_getitem | intro c].
  apply emits_ret.
Qed.

(** What the three prompt builders must guarantee of their requests for a
    chain to emit only requests satisfying [P]. *)
Hypothesis P_generator : forall q d ex, emits P (argument_generator env q d ex).
Hypothesis P_critic : forall a ex, emits P (critic env a ex).
Hypothesis P_refiner : forall q d a c ex, emits P (refiner env q d a c ex).

Lemma emits_argument_chain q d ex : emits P (argument_chain env q d ex).
Proof.
  apply emits_traceable; intros _.
  apply emits_bind; [apply P_generator | intro a].
  apply emits_bind; [apply P_critic | intro c].
  apply P_refiner.
Qed.

Lemma emits_argument_chain2 q d ex : emits P (argument_chain2 env q d ex).
Proof.
  apply emits_traceable; intros rt.
  apply emits_bind; [apply P_generator | intro a].
  apply emits_bind; [apply P_critic | intro c].
  apply emits_bind; [apply P_refiner | intro r].
  apply emits_ret.
Qed.

Lemma emits_argument_chain_3 q d ex : emits P (argument_chain_3 env q d ex).
Proof.
  apply emits_traceable; intros _.
  apply emits_bind; [apply P_generator | intro a].
  apply emits_bind; [apply P_critic | intro c].
  apply P_refiner.
Qed.

End Emits.

Ltac prompt_builder :=
  apply emits_traceable; intros _;
  try (apply emits_bind; [apply emits_datetime_now | intro]);
  apply emits_call_openai.

Ltac roles_ok :=
  unfold well_formed_request, well_formed_message, role_labels; cbn;
  repeat (apply Forall_cons || apply Forall_nil); cbn; auto 6.

Lemma roles_argument_generator env q d ex :
  emits well_formed_request (argument_generator env q d ex).
Proof. prompt_builder. roles_ok. Qed.

Lemma roles_critic env a ex : emits well_formed_request (critic env a ex).
Proof. prompt_builder. roles_ok. Qed.

Lemma roles_refiner env q d a c ex :
  emits well_formed_request (refiner env q d a c ex).
Proof. prompt_builder. roles_ok. Qed.

Lemma defaults_argument_generator env q d ex :
  emits default_parameters (argument_generator env q d ex).
Proof. prompt_builder. now split. Qed.

Lemma defaults_critic env a ex : emits default_parameters (critic env a ex).
Proof. prompt_builder. now split. Qed.

Lemma defaults_refiner env q d a c ex :
  emits default_parameters (refiner env q d a c ex).
Proof. prompt_builder. now split. Qed.

(** C6: every message of every request that [argument_generator], [critic],
    [refiner] and the chains built from them send has its role among
    "system", "user" and "assistant" (its content is a string by
    construction), for all arguments and from every world. *)
Theorem message_roles_fixed (env : Env) :
  (forall q d ex, emits well_formed_request (argument_generator env q d ex)) /\
  (forall a ex, emits well_formed_request (critic env a ex)) /\
  (forall q d a c ex, emits well_formed_request (refiner env q d a c ex)) /\
  (forall q d ex, emits well_formed_request (argument_chain env q d ex)) /\
  (forall q d ex, emits well_formed_request (argument_chain2 env q d ex)) /\
  (forall q d ex, emits well_formed_request (argument_chain_3 env q d ex)).
Proof.
  repeat split; intros.
  - apply roles_argument_generator.
  - apply roles_critic.
  - apply roles_refiner.
  - apply emits_argument_chain;
      auto using roles_argument_generator, roles_critic, roles_refiner.
  - apply emits_argument_chain2;
      auto using roles_argument_generator, roles_critic, roles_refiner.
  - apply emits_argument_chain_3;
      auto using roles_argument_generator, roles_critic, roles_refiner.
Qed.

(** C9: every chat-completion request issued through [argument_generator],
    [critic], [refiner] or any chain variant carries the defaults of
    [call_openai]: model "gpt-3.5-turbo" and temperature 0.0. *)
Theorem requests_use_defaults (env : Env) :
  (forall q d ex, emits default_parameters (argument_generator env q d ex)) /\
  (forall a ex, emits default_parameters (critic env a ex)) /\
  (forall q d a c ex, emits default_parameters (refiner env q d a c ex)) /\
  (forall q d ex, emits default_parameters (argument_chain env q d ex)) /\
  (forall q d ex, emits default_parameters (argument_chain2 env q d ex)) /\
  (forall q d ex, emits default_parameters (argument_chain_3 env q d ex)).
Proof.
  repeat split; intros.
  - apply defaults_argument_generator.
  - apply defaults_critic.
  - apply defaults_refiner.
  - apply emits_argument_chain;
      auto using defaults_argument_generator, defaults_critic, defaults_refiner.
  - apply emits_argument_chain2;
      auto using defaults_argument_generator, defaults_critic, defaults_refiner.
  - apply emits_argument_chain_3;
      auto using defaults_argument_generator, defaults_critic, defaults_refiner.
Qed.

(** The run of cell 8 does send three requests, so the two statements above
    are not about an empty log. *)
Example cell_8_sends_three :
  length (api_calls (snd (cell_8 demo_env initial_world))) = 3.
Proof. reflexivity. Qed.

(** ** Runs that end normally: the world they leave *)

Lemma advance_advance t1 r1 k1 e1 t2 r2 k2 e2 w :
  advance t2 r2 k2 e2 (advance t1 r1 k1 e1 w)
  = advance (t1 + t2) (r1 ++ r2) (k1 + k2) (e1 ++ e2) w.
Proof.
  unfold advance; cbn.
  now rewrite <- !app_assoc, <- !Nat.add_assoc.
Qed.

Lemma bind_ok {A B} (m : M A) (k : A -> M B) w a w1 out :
  m w = (inr a, w1) -> k a w1 = out -> bind m k w = out.
Proof. intros Hm Hk. unfold bind. now rewrite Hm. Qed.

Lemma world_fields (w1 w2 : World) :
  clock w1 = clock w2 -> api_calls w1 = api_calls w2 ->
  uuids_drawn w1 = uuids_drawn w2 -> run_stack w1 = run_stack w2 ->
  trace_log w1 = trace_log w2 -> feedback_log w1 = feedback_log w2 ->
  shared_runs w1 = shared_runs w2 -> raised w1 = raised w2 ->
  w1 = w2.
Proof. destruct w1, w2; cbn; intros; now subst. Qed.

Ltac world_eq :=
  unfold ret; try (apply f_equal2; [reflexivity | ]);
  apply world_fields; cbn; rewrite <- ?app_assoc; cbn;
  try reflexivity; try lia.

Section Runs.

Variable env : Env.
Hypothesis Hok : tracing_ok env.

Lemma traceable_ok {A} rtype fname dtags dmeta ex (func : RunTree -> M A)
    w a t reqs k ev :
  let rt := fst (setup_run env rtype fname dtags dmeta ex w) in
  let w1 := snd (setup_run env rtype fname dtags dmeta ex w) in
  func rt (enter rt w1) = (inr a, advance t reqs k ev (enter rt w1)) ->
  traceable env rtype fname dtags dmeta ex func w
  = (inr a, advance t reqs (fresh_ids ex + k) (span rt ev) w).
Proof.
  unfold traceable, fresh_ids, setup_run.
  destruct (requested_id ex) as [u | ]; cbn; rewrite Hok; unfold enter; cbn;
    intros ->; world_eq.
Qed.

Lemma traceable_child_ok {A} rtype fname (func : RunTree -> M A)
    w a t reqs k ev :
  let rt := child_run env rtype fname (current_run w) (uuids_drawn w) in
  let w1 := set_uuids_drawn (S (uuids_drawn w)) w in
  func rt (enter rt w1) = (inr a, advance t reqs k ev (enter rt w1)) ->
  traceable env rtype fname [] [] None func w
  = (inr a, advance t reqs (S k) (span rt ev) w).
Proof. intros rt w1 H. now apply (traceable_ok rtype fname [] [] None). Qed.

Lemma call_openai_ok data m t w s :
  let req := {| model := m; messages := data; temperature := t |} in
  completion (create env (api_calls w) req) = inr s ->
  call_openai env data m t None w
  = (inr s,
     advance 0 [req] 1
       (span (child_run env "llm" "call_openai" (current_run w)
                (uuids_drawn w)) []) w).
Proof.
  intros req H. unfold call_openai.
  apply traceable_child_ok with (t := 0) (reqs := [req]) (k := 0) (ev := []).
  unfold bind, ChatCompletion_create, completion in *. cbn.
  fold req. destruct (create env (api_calls w) req) as [e | resp];
    [discriminate | ].
  cbn. destruct (choices resp) as [ | c rest]; [discriminate | ].
  injection H as <-. cbn. world_eq.
Qed.

Lemma argument_generator_ok q d w a :
  let req := chat_request (generator_prompt (now env (clock w)) q d) in
  completion (create env (api_calls w) req) = inr a ->
  argument_generator env q d None w
  = (inr a,
     advance 1 [req] 2
       (wrapper_events env "argument_generator" (current_run w)
          (uuids_drawn w)) w).
Proof.
  intros req H. unfold argument_generator.
  apply traceable_child_ok with (t := 1) (reqs := [req]) (k := 1)
    (ev := span (child_run env "llm" "call_openai"
                   (Some (uuid4_at env (uuids_drawn w)))
                   (S (uuids_drawn w))) []).
  unfold bind, datetime_now. cbn -[call_openai].
  rewrite call_openai_ok with (s := a); [ | exact H].
  world_eq.
Qed.

Lemma critic_ok arg w c :
  let req := chat_request (critic_prompt arg) in
  completion (create env (api_calls w) req) = inr c ->
  critic env arg None w
  = (inr c,
     advance 0 [req] 2
       (wrapper_events env "critic" (current_run w) (uuids_drawn w)) w).
Proof.
  intros req H. unfold critic.
  apply traceable_child_ok with (t := 0) (reqs := [req]) (k := 1)
    (ev := span (child_run env "llm" "call_openai"
                   (Some (uuid4_at env (uuids_drawn w)))
                   (S (uuids_drawn w))) []).
  rewrite call_openai_ok with (s := c); [ | exact H].
  world_eq.
Qed.

Lemma refiner_ok q d arg crit w r :
  let req := chat_request (refiner_prompt (now env (clock w)) q d arg crit) in
  completion (create env (api_calls w) req) = inr r ->
  refiner env q d arg crit None w
  = (inr r,
     advance 1 [req] 2
       (wrapper_events env "refiner" (current_run w) (uuids_drawn w)) w).
Proof.
  intros req H. unfold refiner.
  apply traceable_child_ok with (t := 1) (reqs := [req]) (k := 1)
    (ev := span (child_run env "llm" "call_openai"
                   (Some (uuid4_at env (uuids_drawn w)))
                   (S (uuids_drawn w))) []).
  unfold bind, datetime_now. cbn -[call_openai].
  rewrite call_openai_ok with (s := r); [ | exact H].
  world_eq.
Qed.

Lemma enter_setup rtype fname dtags dmeta ex w :
  let rt := fst (setup_run env rtype fname dtags dmeta ex w) in
  let w2 := enter rt (snd (setup_run env rtype fname dtags dmeta ex w)) in
  clock w2 = clock w /\ api_calls w2 = api_calls w /\
  current_run w2 = Some (id rt) /\
  uuids_drawn w2 = uuids_drawn w + fresh_ids ex.
Proof.
  unfold setup_run, fresh_ids.
  destruct (requested_id ex); cbn; repeat split; lia.
Qed.

(** The three steps that the chain variants share, started inside the
    chain's own run. *)
Lemma chain_steps_ok q d w a c r :
  let req1 := chat_request (generator_prompt (now env (clock w)) q d) in
  let req2 := chat_request (critic_prompt a) in
  let req3 :=
    chat_request (refiner_prompt (now env (S (clock w))) q d a c) in
  completion (create env (api_calls w) req1) = inr a ->
  completion (create env (api_calls w ++ [req1]) req2) = inr c ->
  completion (create env (api_calls w ++ [req1; req2]) req3) = inr r ->
  (argument <- argument_generator env q d None ;;
   criticism <- critic env argument None ;;
   refiner env q d argument criticism None) w
  = (inr r,
     advance 2 [req1; req2; req3] 6
       (wrapper_events env "argument_generator" (current_run w)
          (uuids_drawn w)
        ++ wrapper_events env "critic" (current_run w) (uuids_drawn w + 2)
        ++ wrapper_events env "refiner" (current_run w) (uuids_drawn w + 4))
       w).
Proof.
  intros req1 req2 req3 H1 H2 H3.
  eapply bind_ok; [apply argument_generator_ok; exact H1 | ].
  eapply bind_ok; [apply critic_ok; exact H2 | ].
  rewrite advance_advance.
  set (W := advance _ _ _ _ w).
  assert (Hc : clock W = S (clock w)) by (cbn; lia).
  assert (Ha : api_calls W = api_calls w ++ [req1; req2]) by reflexivity.
  rewrite refiner_ok with (r := r); [ | rewrite Hc, Ha; exact H3].
  rewrite Hc. subst W. rewrite advance_advance. reflexivity.
Qed.

Lemma chain_body_ok rtype fname dtags dmeta ex q d w a c r :
  let req1 := chat_request (generator_prompt (now env (clock w)) q d) in
  let req2 := chat_request (critic_prompt a) in
  let req3 :=
    chat_request (refiner_prompt (now env (S (clock w))) q d a c) in
  completion (create env (api_calls w) req1) = inr a ->
  completion (create env (api_calls w ++ [req1]) req2) = inr c ->
  completion (create env (api_calls w ++ [req1; req2]) req3) = inr r ->
  traceable env rtype fname dtags dmeta ex (fun _ =>
    argument <- argument_generator env q d None ;;
    criticism <- critic env argument None ;;
    refiner env q d argument criticism None) w
  = (inr r,
     advance 2 [req1; req2; req3] (fresh_ids ex + 6)
       (chain_events env (fst (setup_run env rtype fname dtags dmeta ex w))
          (uuids_drawn w + fresh_ids ex)) w).
Proof.
  intros req1 req2 req3 H1 H2 H3.
  apply traceable_ok.
  destruct (enter_setup rtype fname dtags dmeta ex w) as (Ec & Ea & Er & Eu).
  rewrite chain_steps_ok with (a := a) (c := c) (r := r);
    rewrite ?Ec, ?Ea, ?Er, ?Eu; auto.
Qed.

Lemma chain2_body_ok ex q d w a c r :
  let req1 := chat_request (generator_prompt (now env (clock w)) q d) in
  let req2 := chat_request (critic_prompt a) in
  let req3 :=
    chat_request (refiner_prompt (now env (S (clock w))) q d a c) in
  completion (create env (api_calls w) req1) = inr a ->
  completion (create env (api_calls w ++ [req1]) req2) = inr c ->
  completion (create env (api_calls w ++ [req1; req2]) req3) = inr r ->
  let root := fst (setup_run env "chain" "argument_chain2" [] [] ex w) in
  argument_chain2 env q d ex w
  = (inr (r, id root),
     advance 2 [req1; req2; req3] (fresh_ids ex + 6)
       (chain_events env root (uuids_drawn w + fresh_ids ex)) w).
Proof.
  intros req1 req2 req3 H1 H2 H3 root. unfold argument_chain2.
  apply traceable_ok. subst root.
  set (root := fst (setup_run env "chain" "argument_chain2" [] [] ex w)).
  pose proof (chain_steps_ok q d
    (enter root (snd (setup_run env "chain" "argument_chain2" [] [] ex w)))
    a c r) as Hs.
  cbn zeta in Hs.
  assert (E : forall (m : M string) w0 w1 (u : UUID),
             m w0 = (inr r, w1) ->
             (x <- m ;; ret (x, u)) w0 = (inr (r, u), w1)).
  { intros m w0 w1 u Hm. unfold bind. now rewrite Hm. }
  assert (B : forall w0,
    (argument <- argument_generator env q d None ;;
     criticism <- critic env argument None ;;
     refined_argument <- refiner env q d argument criticism None ;;
     ret (refined_argument, id root)) w0
    = (x <- (argument <- argument_generator env q d None ;;
             criticism <- critic env argument None ;;
             refiner env q d argument criticism None) ;;
       ret (x, id root)) w0).
  { intro w0. unfold bind.
    destruct (argument_generator env q d None w0) as [[e | a0] w1]; auto.
    destruct (critic env a0 None w1) as [[e | c0] w2]; auto. }
  destruct (enter_setup "chain" "argument_chain2" [] [] ex w)
    as (Ec & Ea & Er & Eu).
  fold root in Ec, Ea, Er, Eu.
  rewrite B. erewrite E; [reflexivity | ].
  rewrite Hs; rewrite ?Ec, ?Ea, ?Er, ?Eu; auto.
Qed.

End Runs.

(** C1: each chain variant is a linear call chain.  When tracing does not
    fail and the service answers the three requests with [a], [c] and [r],
    a call of [argument_chain] (likewise [argument_chain2],
    [argument_chain_3]) returns [r] and leaves exactly this behind: two reads
    of the clock; three requests, in order the generator's prompt for the
    query and description, the critic's prompt for the argument [a], the
    refiner's prompt for the query, description, [a] and the criticism [c];
    and inside the chain's run the runs of [argument_generator], [critic]
    and [refiner], in that order, each holding one run of [call_openai].
    The value returned is the refiner's. *)
Theorem chain_is_linear (env : Env) (q d : string)
    (ex : option LangsmithExtra) (w : World) (a c r : string) :
  tracing_ok env ->
  let req1 := chat_request (generator_prompt (now env (clock w)) q d) in
  let req2 := chat_request (critic_prompt a) in
  let req3 :=
    chat_request (refiner_prompt (now env (S (clock w))) q d a c) in
  completion (create env (api_calls w) req1) = inr a ->
  completion (create env (api_calls w ++ [req1]) req2) = inr c ->
  completion (create env (api_calls w ++ [req1; req2]) req3) = inr r ->
  let n := uuids_drawn w + fresh_ids ex in
  let root1 := fst (setup_run env "chain" "argument_chain" [] [] ex w) in
  let root2 := fst (setup_run env "chain" "argument_chain2" [] [] ex w) in
  let root3 :=
    fst (setup_run env "chain" "My Argument Chain" ["tutorial"]
           [("githash", PyStr "e38f04c83")] ex w) in
  argument_chain env q d ex w
  = (inr r,
     advance 2 [req1; req2; req3] (fresh_ids ex + 6)
       (chain_events env root1 n) w) /\
  argument_chain2 env q d ex w
  = (inr (r, id root2),
     advance 2 [req1; req2; req3] (fresh_ids ex + 6)
       (chain_events env root2 n) w) /\
  argument_chain_3 env q d ex w
  = (inr r,
     advance 2 [req1; req2; req3] (fresh_ids ex + 6)
       (chain_events env root3 n) w).
Proof.
  intros Hok req1 req2 req3 H1 H2 H3 n root1 root2 root3.
  split; [ | split].
  - now apply chain_body_ok with (a := a) (c := c).
  - now apply chain2_body_ok with (a := a) (c := c).
  - now apply chain_body_ok with (a := a) (c := c).
Qed.

Lemma chain_is_linear_witness :
  tracing_ok demo_env /\
  argument_chain demo_env sunshine_query sunshine_description None
    initial_world
  = (inr "In moderation, sunshine helps the body make vitamin D.",
     advance 2
       [ chat_request
           (generator_prompt (demo_now 0) sunshine_query sunshine_description);
         chat_request (critic_prompt "Sunshine helps the body make vitamin D.");
         chat_request
           (refiner_prompt (demo_now 1) sunshine_query sunshine_description
              "Sunshine helps the body make vitamin D."
              "What about the risk of sunburn?") ]
       7
       (chain_events demo_env
          (child_run demo_env "chain" "argument_chain" None 0) 1)
       initial_world).
Proof.
  split; [intros log rt; reflexivity | ].
  apply (chain_is_linear demo_env sunshine_query sunshine_description None
           initial_world
           "Sunshine helps the body make vitamin D."
           "What about the risk of sunburn?"
           "In moderation, sunshine helps the body make vitamin D."
           (fun _ _ => eq_refl) eq_refl eq_refl eq_refl).
Defined.

(** ** Tracing does not change what is computed *)

Lemma agrees_ret {A} (a : A) : agrees (ret a) (plain_ret a).
Proof. intro w. reflexivity. Qed.

Lemma agrees_bind {A B} (m : M A) (k : A -> M B) f g :
  agrees m f -> (forall a, agrees (k a) (g a)) ->
  agrees (bind m k) (plain_bind f g).
Proof.
  intros Hm Hk w. unfold bind, plain_bind.
  rewrite <- (Hm w). destruct (m w) as [[e | a] w1]; cbn.
  - reflexivity.
  - apply Hk.
Qed.

Lemma agrees_ext {A} (m : M A) f g :
  agrees m f -> (forall x, f x = g x) -> agrees m g.
Proof. intros H E w. now rewrite <- E. Qed.

Section Agreement.

Variable env : Env.
Hypothesis Hok : tracing_ok env.

Lemma traceable_agrees_at {A} rtype fname dtags dmeta ex
    (func : RunTree -> M A) (f : RunTree -> Plain A) :
  (forall rt, agrees (func rt) (f rt)) ->
  forall w,
    let out := traceable env rtype fname dtags dmeta ex func w in
    (fst out, ext (snd out))
    = f (fst (setup_run env rtype fname dtags dmeta ex w)) (ext w).
Proof.
  intros Hf w. unfold traceable.
  assert (Hs : ext (snd (setup_run env rtype fname dtags dmeta ex w)) = ext w).
  { unfold setup_run. now destruct (requested_id ex). }
  destruct (setup_run env rtype fname dtags dmeta ex w) as [rt w1].
  cbn in Hs. rewrite Hok. cbn.
  match goal with |- context [func rt ?w2] =>
    pose proof (Hf rt w2) as Hf'; change (ext w2) with (ext w1) in Hf';
    destruct (func rt w2) as [r w3] end.
  rewrite <- Hs, <- Hf'. reflexivity.
Qed.

Lemma traceable_agrees {A} rtype fname dtags dmeta ex
    (func : RunTree -> M A) (f : Plain A) :
  (forall rt, agrees (func rt) f) ->
  agrees (traceable env rtype fname dtags dmeta ex func) f.
Proof.
  intros Hf w.
  apply (traceable_agrees_at rtype fname dtags dmeta ex func (fun _ => f) Hf).
Qed.

Lemma call_openai_agrees data m t ex :
  agrees (call_openai env data m t ex)
         (ask env {| model := m; messages := data; temperature := t |}).
Proof.
  apply traceable_agrees; intros _ w.
  unfold bind, ChatCompletion_create, ask, completion, ext. cbn.
  destruct (create env (api_calls w) _) as [e | resp]; cbn; [reflexivity | ].
  destruct (choices resp) as [ | c rest]; reflexivity.
Qed.

Lemma argument_generator_agrees q d ex :
  agrees (argument_generator env q d ex) (plain_generator env q d).
Proof.
  apply traceable_agrees; intros _ w.
  unfold bind, datetime_now. cbn -[call_openai].
  now rewrite call_openai_agrees.
Qed.

Lemma critic_agrees a ex : agrees (critic env a ex) (plain_critic env a).
Proof. apply traceable_agrees; intros _. apply call_openai_agrees. Qed.

Lemma refiner_agrees q d a c ex :
  agrees (refiner env q d a c ex) (plain_refiner env q d a c).
Proof.
  apply traceable_agrees; intros _ w.
  unfold bind, datetime_now. cbn -[call_openai].
  now rewrite call_openai_agrees.
Qed.

Lemma chain_steps_agree q d :
  agrees (argument <- argument_generator env q d None ;;
          criticism <- critic env argument None ;;
          refiner env q d argument criticism None)
         (plain_chain env q d).
Proof.
  apply agrees_bind; [apply argument_generator_agrees | intro a].
  apply agrees_bind; [apply critic_agrees | intro c].
  apply refiner_agrees.
Qed.

Lemma argument_chain_agrees q d ex :
  agrees (argument_chain env q d ex) (plain_chain env q d).
Proof. apply traceable_agrees; intros _. apply chain_steps_agree. Qed.

Lemma argument_chain_3_agrees q d ex :
  agrees (argument_chain_3 env q d ex) (plain_chain env q d).
Proof. apply traceable_agrees; intros _. apply chain_steps_agree. Qed.

Lemma argument_chain2_agrees_at q d ex w :
  let out := argument_chain2 env q d ex w in
  let root := fst (setup_run env "chain" "argument_chain2" [] [] ex w) in
  (fst out, ext (snd out))
  = plain_bind (plain_chain env q d) (fun s => plain_ret (s, id root))
      (ext w).
Proof.
  cbn zeta. unfold argument_chain2.
  apply (traceable_agrees_at "chain" "argument_chain2" [] [] ex
    (fun run_tree =>
       argument <- argument_generator env q d None ;;
       criticism <- critic env argument None ;;
       refined_argument <- refiner env q d argument criticism None ;;
       ret (refined_argument, id run_tree))
    (fun rt => plain_bind (plain_chain env q d)
                 (fun s => plain_ret (s, id rt)))).
  intros rt.
  eapply agrees_ext.
  - apply agrees_bind; [apply argument_generator_agrees | intro a].
    apply agrees_bind; [apply critic_agrees | intro c].
    apply agrees_bind; [apply refiner_agrees | intro r].
    apply agrees_ret.
  - intro x. unfold plain_chain, plain_bind, plain_ret.
    destruct (plain_generator env q d x) as [[e | a] x1]; auto.
    destruct (plain_critic env a x1) as [[e | c] x2]; auto.
Qed.

Lemma argument_chain2_agrees q d ex w :
  let out := argument_chain2 env q d ex w in
  (first_component (fst out), ext (snd out)) = plain_chain env q d (ext w).
Proof.
  pose proof (argument_chain2_agrees_at q d ex w) as H. cbn zeta in *.
  destruct (argument_chain2 env q d ex w) as [r w'].
  cbn [fst snd] in *. unfold plain_bind, plain_ret in H.
  destruct (plain_chain env q d (ext w)) as [[e | s] x'];
    injection H as -> ->; reflexivity.
Qed.

Lemma argument_chain2_result q d ex w :
  fst (argument_chain2 env q d ex w)
  = with_id (id (fst (setup_run env "chain" "argument_chain2" [] [] ex w)))
      (fst (plain_chain env q d (ext w))).
Proof.
  pose proof (argument_chain2_agrees_at q d ex w) as H. cbn zeta in *.
  destruct (argument_chain2 env q d ex w) as [r w'].
  cbn [fst snd] in *. unfold plain_bind, plain_ret in H.
  destruct (plain_chain env q d (ext w)) as [[e | s] x'];
    injection H as -> _; reflexivity.
Qed.

End Agreement.

(** ** The chat-completion call and its three wrappers *)

(** C5: [call_openai] sends exactly one request, made of the message list
    it was given, in order, with its [model] and [temperature], and returns
    the content of the message of the first choice of the response (the
    exception of the call or of the indexing otherwise). *)
Theorem call_openai_contract (env : Env) (data : list Message) (m : string)
    (t : float) (ex : option LangsmithExtra) (w : World) :
  tracing_ok env ->
  let req := {| model := m; messages := data; temperature := t |} in
  let out := call_openai env data m t ex w in
  api_calls (snd out) = api_calls w ++ [req] /\
  fst out = completion (create env (api_calls w) req) /\
  (forall resp c rest,
      create env (api_calls w) req = inr resp ->
      choices resp = c :: rest ->
      fst out = inr (content (message c))).
Proof.
  intros Hok req out.
  pose proof (call_openai_agrees env Hok data m t ex w) as H.
  fold out in H. unfold ask, ext in H. cbn in H.
  injection H as Hr Hc Ha. fold req in Hr.
  repeat split; auto.
  intros resp c rest E1 E2. rewrite Hr, E1. cbn. now rewrite E2.
Qed.

Lemma call_openai_contract_witness :
  tracing_ok demo_env /\
  fst (call_openai demo_env (critic_prompt "Sunshine is nice.")
         "gpt-3.5-turbo" 0%float None initial_world)
  = inr "Sunshine helps the body make vitamin D.".
Proof.
  split; [intros log rt; reflexivity | ].
  apply (call_openai_contract demo_env (critic_prompt "Sunshine is nice.")
           "gpt-3.5-turbo" 0%float None initial_world
           (fun _ _ => eq_refl)).
Defined.

(** C2: each of [argument_generator], [critic] and [refiner] hands back the
    string of the chat-completion response untouched: when the service
    answers the request the wrapper sends with a response whose first choice
    holds [s], the wrapper returns [s]. *)
Theorem wrappers_pass_response_through (env : Env) (w : World)
    (resp : Response) (c : Choice) (rest : list Choice) :
  tracing_ok env ->
  choices resp = c :: rest ->
  (forall q d ex,
      create env (api_calls w)
        (chat_request (generator_prompt (now env (clock w)) q d)) = inr resp ->
      fst (argument_generator env q d ex w) = inr (content (message c))) /\
  (forall a ex,
      create env (api_calls w) (chat_request (critic_prompt a)) = inr resp ->
      fst (critic env a ex w) = inr (content (message c))) /\
  (forall q d a cr ex,
      create env (api_calls w)
        (chat_request (refiner_prompt (now env (clock w)) q d a cr))
      = inr resp ->
      fst (refiner env q d a cr ex w) = inr (content (message c))).
Proof.
  intros Hok Hc. repeat split.
  - intros q d ex E.
    pose proof (argument_generator_agrees env Hok q d ex w) as H.
    unfold plain_generator, ask, ext in H. cbn in H.
    injection H as Hr _ _. rewrite Hr, E. cbn. now rewrite Hc.
  - intros a ex E.
    pose proof (critic_agrees env Hok a ex w) as H.
    unfold plain_critic, ask, ext in H. cbn in H.
    injection H as Hr _ _. rewrite Hr, E. cbn. now rewrite Hc.
  - intros q d a cr ex E.
    pose proof (refiner_agrees env Hok q d a cr ex w) as H.
    unfold plain_refiner, ask, ext in H. cbn in H.
    injection H as Hr _ _. rewrite Hr, E. cbn. now rewrite Hc.
Qed.

Lemma wrappers_pass_response_through_witness :
  tracing_ok demo_env /\
  fst (critic demo_env "Sunshine is nice." None initial_world)
  = inr "Sunshine helps the body make vitamin D.".
Proof.
  split; [intros log rt; reflexivity | ].
  apply (wrappers_pass_response_through demo_env initial_world
           (reply "Sunshine helps the body make vitamin D.")
           {| message := {| role := "assistant";
                            content := "Sunshine helps the body make vitamin D." |};
              finish_reason := "stop" |} []
           (fun _ _ => eq_refl) eq_refl).
  reflexivity.
Defined.

(** C7, as the notebook has it: the prompts are built by string
    interpolation of the arguments and, in the system message of
    [argument_generator] and of [refiner], of the time read from the clock.
    [argument_generator] sends the system message and the user message
    "The discussion topic is " followed by the query; [critic] sends its
    fixed instruction and the argument verbatim; [refiner] sends the system
    message, the topic, [current_arg] verbatim as the assistant message,
    [criticism] verbatim as a user message, and its fixed instruction. *)
Theorem prompts_interpolate_inputs_and_time (env : Env) (q d a c : string)
    (ex : option LangsmithExtra) (w : World) :
  tracing_ok env ->
  api_calls (snd (argument_generator env q d ex w))
  = api_calls w ++
    [chat_request
       [ {| role := "system";
            content := "You are a debater making an argument on a topic."
                       ++ d ++ " The current time is "
                       ++ now env (clock w) |};
         {| role := "user"; content := "The discussion topic is " ++ q |} ]]
  /\
  api_calls (snd (critic env a ex w))
  = api_calls w ++
    [chat_request
       [ {| role := "system";
            content := "You are a critic." ++ newline
                       ++ "What unresolved questions or criticism do you have after reading the following argument?"
                       ++ "Provide a concise summary of your feedback." |};
         {| role := "system"; content := a |} ]]
  /\
  api_calls (snd (refiner env q d a c ex w))
  = api_calls w ++
    [chat_request
       [ {| role := "system";
            content := "You are a debater making an argument on a topic."
                       ++ d ++ " The current time is "
                       ++ now env (clock w) |};
         {| role := "user"; content := "The discussion topic is " ++ q |};
         {| role := "assistant"; content := a |};
         {| role := "user"; content := c |};
         {| role := "system";
            content := "Please generate a new argument that incorporates the feedback from the user." |} ]].
Proof.
  intros Hok. repeat split.
  - pose proof (argument_generator_agrees env Hok q d ex w) as H.
    unfold plain_generator, ask, ext in H. cbn in H.
    now injection H as _ _ Ha.
  - pose proof (critic_agrees env Hok a ex w) as H.
    unfold plain_critic, ask, ext in H. cbn in H.
    now injection H as _ _ Ha.
  - pose proof (refiner_agrees env Hok q d a c ex w) as H.
    unfold plain_refiner, ask, ext in H. cbn in H.
    now injection H as _ _ Ha.
Qed.

Lemma prompts_interpolate_inputs_and_time_witness :
  tracing_ok demo_env /\
  length (api_calls (snd (critic demo_env "Sunshine is nice." None
                            initial_world))) = 1.
Proof.
  split; [intros log rt; reflexivity | ].
  destruct (prompts_interpolate_inputs_and_time demo_env sunshine_query
              sunshine_description "Sunshine is nice." "Why?" None
              initial_world (fun _ _ => eq_refl)) as (_ & H & _).
  rewrite H. reflexivity.
Defined.

(** C7 as stated does not hold: with the same query and description, and
    the same requests made before, [argument_generator] sends different
    messages when the clock has been read once more, so its messages are not
    made of its inputs alone. *)
Lemma generator_prompt_reads_clock :
  api_calls initial_world = api_calls (set_clock 1 initial_world) /\
  api_calls (snd (argument_generator demo_env sunshine_query "" None
                    initial_world))
  <> api_calls (snd (argument_generator demo_env sunshine_query "" None
                       (set_clock 1 initial_world))).
Proof. split; [reflexivity | ]. vm_compute. discriminate. Qed.

(** C10: [critic] depends on its argument only.  From any two worlds (so
    whatever query and description the chain was called with), for the same
    argument it sends the same request, whose messages are the critic's
    instruction and the argument; and if the service answers that request
    the same way in both, [critic] returns the same criticism. *)
Theorem critic_depends_on_argument_only (env : Env) (a : string)
    (ex1 ex2 : option LangsmithExtra) (w1 w2 : World) :
  tracing_ok env ->
  let req := chat_request (critic_prompt a) in
  api_calls (snd (critic env a ex1 w1)) = api_calls w1 ++ [req] /\
  api_calls (snd (critic env a ex2 w2)) = api_calls w2 ++ [req] /\
  (create env (api_calls w1) req = create env (api_calls w2) req ->
   fst (critic env a ex1 w1) = fst (critic env a ex2 w2)).
Proof.
  intros Hok req.
  pose proof (critic_agrees env Hok a ex1 w1) as H1.
  pose proof (critic_agrees env Hok a ex2 w2) as H2.
  unfold plain_critic, ask, ext in H1, H2. cbn in H1, H2.
  injection H1 as Hr1 _ Ha1. injection H2 as Hr2 _ Ha2.
  fold req in Hr1, Hr2.
  repeat split; auto.
  intros E. now rewrite Hr1, Hr2, E.
Qed.

Lemma critic_depends_on_argument_only_witness :
  tracing_ok demo_env /\
  fst (critic demo_env "Sunshine is nice." None initial_world)
  = fst (critic demo_env "Sunshine is nice." None
           (set_clock 5 initial_world)).
Proof.
  split; [intros log rt; reflexivity | ].
  apply (critic_depends_on_argument_only demo_env "Sunshine is nice."
           None None initial_world (set_clock 5 initial_world)
           (fun _ _ => eq_refl)).
  reflexivity.
Defined.

(** ** The three chains compute the same thing *)

(** C8: [argument_chain], the first component of [argument_chain2] and
    [argument_chain_3] are extensionally equal.  For the same query and
    description, started with the same clock and the same requests already
    made, whatever the chat-completion service does, the three end the same
    way: the same refined argument, or the same exception. *)
Theorem chain_variants_agree (env : Env) (q d : string)
    (ex1 ex2 ex3 : option LangsmithExtra) (w1 w2 w3 : World) :
  tracing_ok env ->
  ext w2 = ext w1 -> ext w3 = ext w1 ->
  first_component (fst (argument_chain2 env q d ex2 w2))
  = fst (argument_chain env q d ex1 w1) /\
  fst (argument_chain_3 env q d ex3 w3)
  = fst (argument_chain env q d ex1 w1).
Proof.
  intros Hok E2 E3.
  pose proof (argument_chain_agrees env Hok q d ex1 w1) as H1.
  pose proof (argument_chain2_agrees env Hok q d ex2 w2) as H2.
  pose proof (argument_chain_3_agrees env Hok q d ex3 w3) as H3.
  cbn zeta in H2. rewrite E2 in H2. rewrite E3 in H3.
  rewrite <- H1 in H2, H3.
  injection H2 as -> _. injection H3 as -> _. now split.
Qed.

Lemma chain_variants_agree_witness :
  tracing_ok demo_env /\
  first_component
    (fst (argument_chain2 demo_env sunshine_query sunshine_description None
            initial_world))
  = fst (argument_chain demo_env sunshine_query sunshine_description None
           initial_world) /\
  fst (argument_chain_3 demo_env sunshine_query sunshine_description None
         initial_world)
  = fst (argument_chain demo_env sunshine_query sunshine_description None
           initial_world).
Proof.
  split; [intros log rt; reflexivity | ].
  apply (chain_variants_agree demo_env sunshine_query sunshine_description
           None None None initial_world initial_world initial_world
           (fun _ _ => eq_refl) eq_refl eq_refl).
Defined.

(** ** Run identifiers *)

Lemma requested_id_is_used env rtype fname dtags dmeta ex u w :
  requested_id ex = Some u ->
  id (fst (setup_run env rtype fname dtags dmeta ex w)) = u.
Proof. intros H. unfold setup_run. now rewrite H. Qed.

Lemma fresh_id_is_used env rtype fname dtags dmeta ex w :
  requested_id ex = None ->
  id (fst (setup_run env rtype fname dtags dmeta ex w))
  = uuid4_at env (uuids_drawn w).
Proof. intros H. unfold setup_run. now rewrite H. Qed.

(** C4: the run identifier is stable once issued.  [argument_chain2]
    returns, next to the refined argument, exactly the identifier of the run
    tree that the decorator set up for the call and injected (the requested
    one when [langsmith_extra] asks for one, a fresh one otherwise).  In the
    notebook's session (cells 11, 14, 15), when every external call
    succeeds, the identifier under which the chain's run was reported is the
    one returned, the one the feedback is attached to and the one shared;
    in cells 20 and 21 the identifier requested is the one the run of
    "My Argument Chain" is reported under and the one the feedback is
    attached to. *)
Theorem run_identifier_is_stable (env : Env) (w : World)
    (a c r url : string) :
  tracing_ok env ->
  let q := sunshine_query in
  let d := sunshine_description in
  let req1 := chat_request (generator_prompt (now env (clock w)) q d) in
  let req2 := chat_request (critic_prompt a) in
  let req3 :=
    chat_request (refiner_prompt (now env (S (clock w))) q d a c) in
  completion (create env (api_calls w) req1) = inr a ->
  completion (create env (api_calls w ++ [req1]) req2) = inr c ->
  completion (create env (api_calls w ++ [req1; req2]) req3) = inr r ->
  let rid := uuid4_at env (uuids_drawn w) in
  (forall fb, post_feedback env (feedback_log w) fb = None) ->
  share_link env rid = inr url ->
  (forall q' d' ex w',
      fst (argument_chain2 env q' d' ex w')
      = with_id
          (id (fst (setup_run env "chain" "argument_chain2" [] [] ex w')))
          (fst (plain_chain env q' d' (ext w')))) /\
  (forall ex u w',
      requested_id ex = Some u ->
      id (fst (setup_run env "chain" "argument_chain2" [] [] ex w')) = u) /\
  (forall ex w',
      requested_id ex = None ->
      id (fst (setup_run env "chain" "argument_chain2" [] [] ex w'))
      = uuid4_at env (uuids_drawn w')) /\
  (let out := feedback_session env w in
   let root :=
     {| id := rid; name := "argument_chain2"; run_type := "chain";
        parent_run_id := current_run w; tags := []; metadata := [] |} in
   fst out = inr (r, rid, url) /\
   trace_log (snd out)
   = trace_log w ++ chain_events env root (uuids_drawn w + 1) /\
   feedback_log (snd out)
   = feedback_log w ++
     [ {| fb_run_id := rid; fb_key := "user_feedback";
          fb_score := Some (PyFloat 0.5%float);
          fb_correction :=
            Some [("generation", PyStr "Sunshine is nice. Full stop.")];
          fb_source_info := None |} ] /\
   shared_runs (snd out) = shared_runs w ++ [rid]) /\
  (let out := requested_id_session env w in
   let root :=
     {| id := rid; name := "My Argument Chain"; run_type := "chain";
        parent_run_id := current_run w;
        tags := ["tutorial"; "another-tag"];
        metadata := [("githash", PyStr "e38f04c83");
                     ("another-key", PyInt 1)] |} in
   fst out = inr (rid, r) /\
   trace_log (snd out)
   = trace_log w ++ chain_events env root (uuids_drawn w + 1) /\
   feedback_log (snd out)
   = feedback_log w ++
     [ {| fb_run_id := rid; fb_key := "user_feedback";
          fb_score := Some (PyInt 1);
          fb_correction := None;
          fb_source_info := Some [("origin", PyStr "example notebook")] |} ]).
Proof.
  intros Hok q d req1 req2 req3 H1 H2 H3 rid Hfb Hshare.
  split; [ | split; [ | split; [ | split]]].
  - intros. now apply argument_chain2_result.
  - intros. now apply requested_id_is_used.
  - intros. now apply fresh_id_is_used.
  - pose proof (chain2_body_ok env Hok None q d w a c r H1 H2 H3) as Hc.
    cbn zeta in Hc.
    unfold feedback_session, cell_11, cell_14, cell_15, bind.
    fold q d. rewrite Hc. cbn.
    unfold create_feedback. cbn. rewrite Hfb. cbn.
    unfold share_run. fold rid. rewrite Hshare. cbn.
    repeat split.
  - pose proof (chain_body_ok env Hok "chain" "My Argument Chain" ["tutorial"]
                  [("githash", PyStr "e38f04c83")]
                  (Some {| extra_tags := ["another-tag"];
                           extra_metadata := [("another-key", PyInt 1)];
                           extra_run_id := Some rid |})
                  q d (set_uuids_drawn (S (uuids_drawn w)) w) a c r
                  H1 H2 H3) as Hc.
    cbn zeta in Hc.
    unfold requested_id_session, cell_20, cell_21, bind, uuid4,
      argument_chain_3.
    fold q d rid. rewrite Hc. cbn.
    unfold create_feedback. cbn. rewrite Hfb. cbn.
    repeat split. now rewrite Nat.add_0_r, Nat.add_1_r.
Qed.

Lemma run_identifier_is_stable_witness :
  tracing_ok demo_env /\
  fst (feedback_session demo_env initial_world)
  = inr ("In moderation, sunshine helps the body make vitamin D.",
         1000%N, "https://smith.langchain.com/public/r") /\
  map fb_run_id (feedback_log (snd (feedback_session demo_env initial_world)))
  = [1000%N] /\
  shared_runs (snd (feedback_session demo_env initial_world)) = [1000%N].
Proof.
  split; [intros log rt; reflexivity | ].
  destruct (run_identifier_is_stable demo_env initial_world
              "Sunshine helps the body make vitamin D."
              "What about the risk of sunburn?"
              "In moderation, sunshine helps the body make vitamin D."
              "https://smith.langchain.com/public/r"
              (fun _ _ => eq_refl) eq_refl eq_refl eq_refl
              (fun _ => eq_refl) eq_refl)
    as (_ & _ & _ & (Hr & _ & Hf & Hs) & _).
  rewrite Hr, Hf, Hs. repeat split.
Defined.

(** ** Further properties of the application *)

(** *** Failures of the chat-completion service *)

Section Failures.

Variable env : Env.
Hypothesis Hok : tracing_ok env.

Lemma call_openai_outcome data m t ex w :
  let req := {| model := m; messages := data; temperature := t |} in
  let out := call_openai env data m t ex w in
  fst out = completion (create env (api_calls w) req) /\
  clock (snd out) = clock w /\
  api_calls (snd out) = api_calls w ++ [req].
Proof.
  cbn zeta. pose proof (call_openai_agrees env Hok data m t ex w) as H.
  unfold ask, ext in H. cbn in H. now injection H as -> -> ->.
Qed.

Lemma argument_generator_outcome q d ex w :
  let req := chat_request (generator_prompt (now env (clock w)) q d) in
  let out := argument_generator env q d ex w in
  fst out = completion (create env (api_calls w) req) /\
  clock (snd out) = S (clock w) /\
  api_calls (snd out) = api_calls w ++ [req].
Proof.
  cbn zeta. pose proof (argument_generator_agrees env Hok q d ex w) as H.
  unfold plain_generator, ask, ext in H. cbn in H.
  now injection H as -> -> ->.
Qed.

Lemma critic_outcome a ex w :
  let req := chat_request (critic_prompt a) in
  let out := critic env a ex w in
  fst out = completion (create env (api_calls w) req) /\
  clock (snd out) = clock w /\
  api_calls (snd out) = api_calls w ++ [req].
Proof.
  cbn zeta. pose proof (critic_agrees env Hok a ex w) as H.
  unfold plain_critic, ask, ext in H. cbn in H.
  now injection H as -> -> ->.
Qed.

Lemma refiner_outcome q d a c ex w :
  let req := chat_request (refiner_prompt (now env (clock w)) q d a c) in
  let out := refiner env q d a c ex w in
  fst out = completion (create env (api_calls w) req) /\
  clock (snd out) = S (clock w) /\
  api_calls (snd out) = api_calls w ++ [req].
Proof.
  cbn zeta. pose proof (refiner_agrees env Hok q d a c ex w) as H.
  unfold plain_refiner, ask, ext in H. cbn in H.
  now injection H as -> -> ->.
Qed.

(** The undecorated chain, stage by stage. *)
Lemma plain_chain_stage1 q d t h e :
  completion (create env h (chat_request (generator_prompt (now env t) q d)))
  = inl e ->
  plain_chain env q d (t, h)
  = (inl e, (S t, h ++ [chat_request (generator_prompt (now env t) q d)])).
Proof.
  intros H. unfold plain_chain, plain_bind, plain_generator, ask. cbn.
  now rewrite H.
Qed.

Lemma plain_chain_stage2 q d t h a e :
  let req1 := chat_request (generator_prompt (now env t) q d) in
  completion (create env h req1) = inr a ->
  completion (create env (h ++ [req1]) (chat_request (critic_prompt a)))
  = inl e ->
  plain_chain env q d (t, h)
  = (inl e, (S t, h ++ [req1; chat_request (critic_prompt a)])).
Proof.
  intros req1 H1 H2.
  unfold plain_chain, plain_bind, plain_generator, plain_critic, ask. cbn.
  fold req1. rewrite H1. cbn. rewrite H2. now rewrite <- app_assoc.
Qed.

Lemma plain_chain_stage3 q d t h a c :
  let req1 := chat_request (generator_prompt (now env t) q d) in
  let req2 := chat_request (critic_prompt a) in
  let req3 := chat_request (refiner_prompt (now env (S t)) q d a c) in
  completion (create env h req1) = inr a ->
  completion (create env (h ++ [req1]) req2) = inr c ->
  plain_chain env q d (t, h)
  = (completion (create env (h ++ [req1; req2]) req3),
     (S (S t), h ++ [req1; req2; req3])).
Proof.
  intros req1 req2 req3 H1 H2.
  unfold plain_chain, plain_bind, plain_generator, plain_critic,
    plain_refiner, ask. cbn.
  fold req1. rewrite H1. cbn. fold req2. rewrite H2. cbn. fold req3.
  now rewrite <- !app_assoc.
Qed.

(** What the three chain variants do, read off the undecorated chain. *)
Lemma chains_stop q d ex w e t reqs :
  plain_chain env q d (ext w) = (inl e, (clock w + t, api_calls w ++ reqs)) ->
  stops_with e t reqs w (argument_chain env q d ex w) /\
  stops_with e t reqs w (argument_chain2 env q d ex w) /\
  stops_with e t reqs w (argument_chain_3 env q d ex w).
Proof.
  intros H. unfold stops_with.
  pose proof (argument_chain_agrees env Hok q d ex w) as H1.
  pose proof (argument_chain2_agrees env Hok q d ex w) as H2.
  pose proof (argument_chain_3_agrees env Hok q d ex w) as H3.
  cbn zeta in H2. rewrite H in H1, H2, H3. unfold ext in H1, H2, H3.
  injection H1 as -> -> ->. injection H3 as -> -> ->.
  injection H2 as H2 -> ->.
  destruct (fst (argument_chain2 env q d ex w)) as [e' | p]; [ | discriminate].
  injection H2 as ->. repeat split.
Qed.

End Failures.

(** X1: a response without choices.  When the service answers the request
    with an empty list of choices, [call_openai] and each of the three
    wrappers end with the index error of [choices[0]]; the request has been
    sent all the same. *)
Theorem empty_choices_raise_index_error (env : Env) (w : World)
    (resp : Response) :
  tracing_ok env ->
  choices resp = [] ->
  (forall data m t ex,
      create env (api_calls w)
        {| model := m; messages := data; temperature := t |} = inr resp ->
      stops_with (IndexError "list index out of range") 0
        [ {| model := m; messages := data; temperature := t |} ] w
        (call_openai env data m t ex w)) /\
  (forall q d ex,
      create env (api_calls w)
        (chat_request (generator_prompt (now env (clock w)) q d)) = inr resp ->
      stops_with (IndexError "list index out of range") 1
        [chat_request (generator_prompt (now env (clock w)) q d)] w
        (argument_generator env q d ex w)) /\
  (forall a ex,
      create env (api_calls w) (chat_request (critic_prompt a)) = inr resp ->
      stops_with (IndexError "list index out of range") 0
        [chat_request (critic_prompt a)] w (critic env a ex w)) /\
  (forall q d a c ex,
      create env (api_calls w)
        (chat_request (refiner_prompt (now env (clock w)) q d a c))
      = inr resp ->
      stops_with (IndexError "list index out of range") 1
        [chat_request (refiner_prompt (now env (clock w)) q d a c)] w
        (refiner env q d a c ex w)).
Proof.
  intros Hok Hc. unfold stops_with.
  split; [ | split; [ | split]].
  - intros data m t ex E.
    destruct (call_openai_outcome env Hok data m t ex w) as (Hr & Ht & Ha).
    cbn zeta in *. rewrite Hr, Ht, Ha, E, Nat.add_0_r. cbn. now rewrite Hc.
  - intros q d ex E.
    destruct (argument_generator_outcome env Hok q d ex w) as (Hr & Ht & Ha).
    cbn zeta in *. rewrite Hr, Ht, Ha, E, Nat.add_1_r. cbn. now rewrite Hc.
  - intros a ex E.
    destruct (critic_outcome env Hok a ex w) as (Hr & Ht & Ha).
    cbn zeta in *. rewrite Hr, Ht, Ha, E, Nat.add_0_r. cbn. now rewrite Hc.
  - intros q d a c ex E.
    destruct (refiner_outcome env Hok q d a c ex w) as (Hr & Ht & Ha).
    cbn zeta in *. rewrite Hr, Ht, Ha, E, Nat.add_1_r. cbn. now rewrite Hc.
Qed.

Lemma empty_choices_raise_index_error_witness :
  tracing_ok no_choice_env /\
  stops_with (IndexError "list index out of range") 0
    [chat_request (critic_prompt "Sunshine is nice.")] initial_world
    (critic no_choice_env "Sunshine is nice." None initial_world).
Proof.
  split; [intros log rt; reflexivity | ].
  apply (empty_choices_raise_index_error no_choice_env initial_world
           {| choices := [] |} (fun _ _ => eq_refl) eq_refl).
  reflexivity.
Defined.

(** X2: the service raising.  When the chat-completion call raises [e] on
    the request, [call_openai] and each wrapper end with [e] itself, having
    sent that one request (and, for [argument_generator] and [refiner], read
    the clock once). *)
Theorem service_error_surfaces (env : Env) (w : World) (e : exn) :
  tracing_ok env ->
  (forall data m t ex,
      create env (api_calls w)
        {| model := m; messages := data; temperature := t |} = inl e ->
      stops_with e 0
        [ {| model := m; messages := data; temperature := t |} ] w
        (call_openai env data m t ex w)) /\
  (forall q d ex,
      create env (api_calls w)
        (chat_request (generator_prompt (now env (clock w)) q d)) = inl e ->
      stops_with e 1
        [chat_request (generator_prompt (now env (clock w)) q d)] w
        (argument_generator env q d ex w)) /\
  (forall a ex,
      create env (api_calls w) (chat_request (critic_prompt a)) = inl e ->
      stops_with e 0 [chat_request (critic_prompt a)] w
        (critic env a ex w)) /\
  (forall q d a c ex,
      create env (api_calls w)
        (chat_request (refiner_prompt (now env (clock w)) q d a c))
      = inl e ->
      stops_with e 1
        [chat_request (refiner_prompt (now env (clock w)) q d a c)] w
        (refiner env q d a c ex w)).
Proof.
  intros Hok. unfold stops_with.
  split; [ | split; [ | split]].
  - intros data m t ex E.
    destruct (call_openai_outcome env Hok data m t ex w) as (Hr & Ht & Ha).
    cbn zeta in *. now rewrite Hr, Ht, Ha, E, Nat.add_0_r.
  - intros q d ex E.
    destruct (argument_generator_outcome env Hok q d ex w) as (Hr & Ht & Ha).
    cbn zeta in *. now rewrite Hr, Ht, Ha, E, Nat.add_1_r.
  - intros a ex E.
    destruct (critic_outcome env Hok a ex w) as (Hr & Ht & Ha).
    cbn zeta in *. now rewrite Hr, Ht, Ha, E, Nat.add_0_r.
  - intros q d a c ex E.
    destruct (refiner_outcome env Hok q d a c ex w) as (Hr & Ht & Ha).
    cbn zeta in *. now rewrite Hr, Ht, Ha, E, Nat.add_1_r.
Qed.

Lemma service_error_surfaces_witness :
  tracing_ok service_down_env /\
  stops_with (OpenAIError "service unavailable") 1
    [chat_request
       (generator_prompt (demo_now 0) sunshine_query sunshine_description)]
    initial_world
    (argument_generator service_down_env sunshine_query sunshine_description
       None initial_world).
Proof.
  split; [intros log rt; reflexivity | ].
  apply (service_error_surfaces service_down_env initial_world
           (OpenAIError "service unavailable") (fun _ _ => eq_refl)).
  reflexivity.
Defined.

(** X3: a failure under [argument_generator] stops the chain.  When the
    first request does not yield a completion (the service raises, or its
    response has no choices), each chain variant ends with that exception
    after one read of the clock and that single request: the requests of
    [critic] and [refiner] are never sent. *)
Theorem generator_failure_stops_chain (env : Env) (q d : string)
    (ex : option LangsmithExtra) (w : World) (e : exn) :
  tracing_ok env ->
  let req1 := chat_request (generator_prompt (now env (clock w)) q d) in
  completion (create env (api_calls w) req1) = inl e ->
  stops_with e 1 [req1] w (argument_chain env q d ex w) /\
  stops_with e 1 [req1] w (argument_chain2 env q d ex w) /\
  stops_with e 1 [req1] w (argument_chain_3 env q d ex w).
Proof.
  intros Hok req1 H. apply chains_stop; [exact Hok | ].
  unfold ext. rewrite Nat.add_1_r. now apply plain_chain_stage1.
Qed.

Lemma generator_failure_stops_chain_witness :
  tracing_ok service_down_env /\
  stops_with (OpenAIError "service unavailable") 1
    [chat_request
       (generator_prompt (demo_now 0) sunshine_query sunshine_description)]
    initial_world
    (argument_chain service_down_env sunshine_query sunshine_description
       None initial_world).
Proof.
  split; [intros log rt; reflexivity | ].
  apply (generator_failure_stops_chain service_down_env sunshine_query
           sunshine_description None initial_world
           (OpenAIError "service unavailable") (fun _ _ => eq_refl)
           eq_refl).
Defined.

(** X4: a failure under [critic] stops the chain.  When the generator's
    request yields the argument [a] and the critic's request on [a] does not
    yield a completion, each chain variant ends with that exception after
    one read of the clock and those two requests: [refiner] neither reads
    the clock nor sends its request. *)
Theorem critic_failure_stops_chain (env : Env) (q d : string)
    (ex : option LangsmithExtra) (w : World) (a : string) (e : exn) :
  tracing_ok env ->
  let req1 := chat_request (generator_prompt (now env (clock w)) q d) in
  let req2 := chat_request (critic_prompt a) in
  completion (create env (api_calls w) req1) = inr a ->
  completion (create env (api_calls w ++ [req1]) req2) = inl e ->
  stops_with e 1 [req1; req2] w (argument_chain env q d ex w) /\
  stops_with e 1 [req1; req2] w (argument_chain2 env q d ex w) /\
  stops_with e 1 [req1; req2] w (argument_chain_3 env q d ex w).
Proof.
  intros Hok req1 req2 H1 H2. apply chains_stop; [exact Hok | ].
  unfold ext. rewrite Nat.add_1_r. now apply plain_chain_stage2.
Qed.

Lemma critic_failure_stops_chain_witness :
  tracing_ok critic_down_env /\
  stops_with (OpenAIError "service unavailable") 1
    [chat_request
       (generator_prompt (demo_now 0) sunshine_query sunshine_description);
     chat_request (critic_prompt "Sunshine helps the body make vitamin D.")]
    initial_world
    (argument_chain2 critic_down_env sunshine_query sunshine_description
       None initial_world).
Proof.
  split; [intros log rt; reflexivity | ].
  apply (critic_failure_stops_chain critic_down_env sunshine_query
           sunshine_description None initial_world
           "Sunshine helps the body make vitamin D."
           (OpenAIError "service unavailable") (fun _ _ => eq_refl)
           eq_refl eq_refl).
Defined.

(** X5: a failure under [refiner] is the chain's outcome.  When the first
    two requests yield [a] and [c] and the refiner's request does not yield
    a completion, each chain variant ends with that exception, after two
    reads of the clock and the three requests. *)
Theorem refiner_failure_ends_chain (env : Env) (q d : string)
    (ex : option LangsmithExtra) (w : World) (a c : string) (e : exn) :
  tracing_ok env ->
  let req1 := chat_request (generator_prompt (now env (clock w)) q d) in
  let req2 := chat_request (critic_prompt a) in
  let req3 :=
    chat_request (refiner_prompt (now env (S (clock w))) q d a c) in
  completion (create env (api_calls w) req1) = inr a ->
  completion (create env (api_calls w ++ [req1]) req2) = inr c ->
  completion (create env (api_calls w ++ [req1; req2]) req3) = inl e ->
  stops_with e 2 [req1; req2; req3] w (argument_chain env q d ex w) /\
  stops_with e 2 [req1; req2; req3] w (argument_chain2 env q d ex w) /\
  stops_with e 2 [req1; req2; req3] w (argument_chain_3 env q d ex w).
Proof.
  intros Hok req1 req2 req3 H1 H2 H3. apply chains_stop; [exact Hok | ].
  unfold ext.
  rewrite (plain_chain_stage3 env q d (clock w) (api_calls w) a c H1 H2).
  fold req1 req2 req3. rewrite H3. do 2 f_equal. lia.
Qed.

Lemma refiner_failure_ends_chain_witness :
  tracing_ok refiner_down_env /\
  stops_with (OpenAIError "rate limit reached") 2
    [chat_request
       (generator_prompt (demo_now 0) sunshine_query sunshine_description);
     chat_request (critic_prompt "Sunshine helps the body make vitamin D.");
     chat_request
       (refiner_prompt (demo_now 1) sunshine_query sunshine_description
          "Sunshine helps the body make vitamin D."
          "What about the risk of sunburn?")]
    initial_world
    (argument_chain_3 refiner_down_env sunshine_query sunshine_description
       None initial_world).
Proof.
  split; [intros log rt; reflexivity | ].
  apply (refiner_failure_ends_chain refiner_down_env sunshine_query
           sunshine_description None initial_world
           "Sunshine helps the body make vitamin D."
           "What about the risk of sunburn?"
           (OpenAIError "rate limit reached") (fun _ _ => eq_refl)
           eq_refl eq_refl eq_refl).
Defined.

(** *** What a call may cost *)

Lemma costs_ret {A} (a : A) : costs 0 0 (ret a).
Proof.
  intro w. exists []. cbn. rewrite app_nil_r. repeat split; lia.
Qed.

Lemma costs_raise {A} (e : exn) : costs 0 0 (@raise A e).
Proof.
  intro w. exists []. cbn. rewrite app_nil_r. repeat split; lia.
Qed.

Lemma costs_bind {A B} r1 t1 r2 t2 (m : M A) (k : A -> M B) :
  costs r1 t1 m -> (forall a, costs r2 t2 (k a)) ->
  costs (r1 + r2) (t1 + t2) (bind m k).
Proof.
  intros Hm Hk w. unfold bind.
  destruct (Hm w) as (l1 & E1 & L1 & C1).
  destruct (m w) as [[e | a] w1]; cbn in *.
  - exists l1. repeat split; auto; lia.
  - destruct (Hk a w1) as (l2 & E2 & L2 & C2).
    exists (l1 ++ l2). rewrite E2, E1, app_assoc, length_app.
    repeat split; lia.
Qed.

Lemma costs_getitem {A} (l : list A) (i : nat) : costs 0 0 (getitem l i).
Proof.
  unfold getitem. destruct (nth_error l i); [apply costs_ret | apply costs_raise].
Qed.

Section Costs.

Variable env : Env.

Lemma costs_datetime_now : costs 0 1 (datetime_now env).
Proof.
  intro w. exists []. cbn. rewrite app_nil_r. repeat split; lia.
Qed.

Lemma costs_create (req : Request) : costs 1 0 (ChatCompletion_create env req).
Proof.
  intro w. exists [req]. unfold ChatCompletion_create.
  destruct (create env (api_calls w) req); cbn; repeat split; lia.
Qed.

Lemma costs_traceable {A} r t rtype fname dtags dmeta ex
    (func : RunTree -> M A) :
  (forall rt, costs r t (func rt)) ->
  costs r t (traceable env rtype fname dtags dmeta ex func).
Proof.
  intros Hf w. unfold traceable.
  assert (Hs : ext (snd (setup_run env rtype fname dtags dmeta ex w)) = ext w).
  { unfold setup_run. now destruct (requested_id ex). }
  destruct (setup_run env rtype fname dtags dmeta ex w) as [rt w1].
  unfold ext in Hs. cbn in Hs. injection Hs as Hc Ha.
  destruct (post_run env (trace_log w1) rt) as [e | ].
  - exists []. cbn. rewrite Ha, Hc, app_nil_r. repeat split; lia.
  - match goal with |- context [func rt ?w2] =>
      destruct (Hf rt w2) as (l & E & L & C); destruct (func rt w2) as [o w3]
    end.
    exists l. cbn in *. rewrite E, Ha. repeat split; lia.
Qed.

Lemma costs_call_openai data m t ex : costs 1 0 (call_openai env data m t ex).
Proof.
  apply costs_traceable; intros _.
  apply (costs_bind 1 0 0 0); [apply costs_create | intro resp].
  apply (costs_bind 0 0 0 0); [apply costs_getitem | intro c].
  apply costs_ret.
Qed.

Lemma costs_argument_generator q d ex :
  costs 1 1 (argument_generator env q d ex).
Proof.
  apply costs_traceable; intros _.
  apply (costs_bind 0 1 1 0); [apply costs_datetime_now | intro t].
  apply costs_call_openai.
Qed.

Lemma costs_critic a ex : costs 1 0 (critic env a ex).
Proof. apply costs_traceable; intros _. apply costs_call_openai. Qed.

Lemma costs_refiner q d a c ex : costs 1 1 (refiner env q d a c ex).
Proof.
  apply costs_traceable; intros _.
  apply (costs_bind 0 1 1 0); [apply costs_datetime_now | intro t].
  apply costs_call_openai.
Qed.

Lemma costs_chain_steps q d :
  costs 3 2 (argument <- argument_generator env q d None ;;
             criticism <- critic env argument None ;;
             refiner env q d argument criticism None).
Proof.
  apply (costs_bind 1 1 2 1); [apply costs_argument_generator | intro a].
  apply (costs_bind 1 0 1 1); [apply costs_critic | intro c].
  apply costs_refiner.
Qed.

End Costs.

(** X6: bounds on what a call costs, whatever the services do.  From every
    world, [call_openai], [argument_generator], [critic] and [refiner] send
    at most one chat-completion request and the three chain variants at most
    three, always after the requests already made; [call_openai] and
    [critic] never read the clock, [argument_generator] and [refiner] read
    it at most once and a chain at most twice. *)
Theorem calls_cost_at_most (env : Env) :
  (forall data m t ex, costs 1 0 (call_openai env data m t ex)) /\
  (forall q d ex, costs 1 1 (argument_generator env q d ex)) /\
  (forall a ex, costs 1 0 (critic env a ex)) /\
  (forall q d a c ex, costs 1 1 (refiner env q d a c ex)) /\
  (forall q d ex, costs 3 2 (argument_chain env q d ex)) /\
  (forall q d ex, costs 3 2 (argument_chain2 env q d ex)) /\
  (forall q d ex, costs 3 2 (argument_chain_3 env q d ex)).
Proof.
  repeat split; intros.
  - apply costs_call_openai.
  - apply costs_argument_generator.
  - apply costs_critic.
  - apply costs_refiner.
  - apply costs_traceable; intros _. apply costs_chain_steps.
  - apply costs_traceable; intros rt.
    apply (costs_bind 1 1 2 1); [apply costs_argument_generator | intro a].
    apply (costs_bind 1 0 1 1); [apply costs_critic | intro c].
    apply (costs_bind 1 1 0 0); [apply costs_refiner | intro r].
    apply costs_ret.
  - apply costs_traceable; intros _. apply costs_chain_steps.
Qed.

(** The bounds are reached: cell 8 on the sample environment. *)
Example cell_8_costs_three_and_two :
  let out := cell_8 demo_env initial_world in
  length (api_calls (snd out)) = 3 /\ clock (snd out) = 2.
Proof. split; reflexivity. Qed.

(** *** What a call leaves alone *)

Lemma keeps_ret {A} (a : A) : keeps_client_state (ret a).
Proof. intro w. now split. Qed.

Lemma keeps_raise {A} (e : exn) : keeps_client_state (@raise A e).
Proof. intro w. now split. Qed.

Lemma keeps_bind {A B} (m : M A) (k : A -> M B) :
  keeps_client_state m -> (forall a, keeps_client_state (k a)) ->
  keeps_client_state (bind m k).
Proof.
  intros Hm Hk w. unfold bind.
  destruct (Hm w) as (F1 & S1).
  destruct (m w) as [[e | a] w1]; cbn in *.
  - now split.
  - destruct (Hk a w1) as (F2 & S2). split; congruence.
Qed.

Lemma keeps_getitem {A} (l : list A) (i : nat) :
  keeps_client_state (getitem l i).
Proof.
  unfold getitem. destruct (nth_error l i); [apply keeps_ret | apply keeps_raise].
Qed.

Section Keeps.

Variable env : Env.

Lemma keeps_datetime_now : keeps_client_state (datetime_now env).
Proof. intro w. now split. Qed.

Lemma keeps_create (req : Request) :
  keeps_client_state (ChatCompletion_create env req).
Proof.
  intro w. unfold ChatCompletion_create.
  now destruct (create env (api_calls w) req).
Qed.

Lemma keeps_traceable {A} rtype fname dtags dmeta ex (func : RunTree -> M A) :
  (forall rt, keeps_client_state (func rt)) ->
  keeps_client_state (traceable env rtype fname dtags dmeta ex func).
Proof.
  intros Hf w. unfold traceable.
  assert (Hs : let w1 := snd (setup_run env rtype fname dtags dmeta ex w) in
               feedback_log w1 = feedback_log w /\
               shared_runs w1 = shared_runs w).
  { unfold setup_run. now destruct (requested_id ex). }
  destruct (setup_run env rtype fname dtags dmeta ex w) as [rt w1].
  cbn in Hs. destruct Hs as (HF & HS).
  destruct (post_run env (trace_log w1) rt) as [e | ].
  - now split.
  - match goal with |- context [func rt ?w2] =>
      destruct (Hf rt w2) as (F & S); destruct (func rt w2) as [o w3]
    end.
    cbn in *. split; congruence.
Qed.

End Keeps.

Create HintDb keeps.
#[export] Hint Resolve keeps_ret keeps_raise keeps_bind keeps_getitem
  keeps_datetime_now keeps_create keeps_traceable : keeps.

(** X7: the application never touches the client's records.  Whatever the
    outcome, a call of [call_openai], of a wrapper or of a chain variant
    attaches no feedback and shares no run: both logs are as they were. *)
Theorem application_keeps_client_state (env : Env) :
  (forall data m t ex, keeps_client_state (call_openai env data m t ex)) /\
  (forall q d ex, keeps_client_state (argument_generator env q d ex)) /\
  (forall a ex, keeps_client_state (critic env a ex)) /\
  (forall q d a c ex, keeps_client_state (refiner env q d a c ex)) /\
  (forall q d ex, keeps_client_state (argument_chain env q d ex)) /\
  (forall q d ex, keeps_client_state (argument_chain2 env q d ex)) /\
  (forall q d ex, keeps_client_state (argument_chain_3 env q d ex)).
Proof.
  assert (H0 : forall data m t ex,
             keeps_client_state (call_openai env data m t ex)).
  { intros. unfold call_openai. auto with keeps. }
  assert (H1 : forall q d ex,
             keeps_client_state (argument_generator env q d ex)).
  { intros. unfold argument_generator. auto with keeps. }
  assert (H2 : forall a ex, keeps_client_state (critic env a ex)).
  { intros. unfold critic. auto with keeps. }
  assert (H3 : forall q d a c ex,
             keeps_client_state (refiner env q d a c ex)).
  { intros. unfold refiner. auto with keeps. }
  split; [exact H0 | ]. split; [exact H1 | ]. split; [exact H2 | ].
  split; [exact H3 | ]. split; [ | split]; intros.
  - unfold argument_chain. auto with keeps.
  - unfold argument_chain2. auto 7 with keeps.
  - unfold argument_chain_3. auto with keeps.
Qed.

(** *** Requests and inputs *)

Lemma string_length_append (s t : string) :
  String.length (s ++ t)%string = String.length s + String.length t.
Proof. induction s as [ | ch s IH]; cbn; [reflexivity | now rewrite IH]. Qed.

Lemma string_append_inv_head (p s1 s2 : string) :
  (p ++ s1)%string = (p ++ s2)%string -> s1 = s2.
Proof.
  induction p as [ | ch p IH]; cbn; intros H; [exact H | ].
  injection H as H. now apply IH.
Qed.

Lemma string_append_inv_tail (s1 s2 t : string) :
  (s1 ++ t)%string = (s2 ++ t)%string -> s1 = s2.
Proof.
  revert s2. induction s1 as [ | ch s1 IH]; intros [ | ch2 s2] H; cbn in H.
  - reflexivity.
  - apply (f_equal String.length) in H. cbn in H.
    rewrite string_length_append in H. lia.
  - apply (f_equal String.length) in H. cbn in H.
    rewrite string_length_append in H. lia.
  - injection H as -> H. f_equal. now apply IH.
Qed.

(** X8: the request keeps the inputs.  From a given world, two calls of a
    prompt-building function that send the same request were given the same
    strings: the query and description for [argument_generator], the
    argument for [critic], and all four strings for [refiner]. *)
Theorem requests_determine_inputs (env : Env) (w : World) :
  tracing_ok env ->
  (forall q1 d1 ex1 q2 d2 ex2,
      api_calls (snd (argument_generator env q1 d1 ex1 w))
      = api_calls (snd (argument_generator env q2 d2 ex2 w)) ->
      q1 = q2 /\ d1 = d2) /\
  (forall a1 ex1 a2 ex2,
      api_calls (snd (critic env a1 ex1 w))
      = api_calls (snd (critic env a2 ex2 w)) ->
      a1 = a2) /\
  (forall q1 d1 a1 c1 ex1 q2 d2 a2 c2 ex2,
      api_calls (snd (refiner env q1 d1 a1 c1 ex1 w))
      = api_calls (snd (refiner env q2 d2 a2 c2 ex2 w)) ->
      q1 = q2 /\ d1 = d2 /\ a1 = a2 /\ c1 = c2).
Proof.
  intros Hok. split; [ | split].
  - intros q1 d1 ex1 q2 d2 ex2 H.
    destruct (argument_generator_outcome env Hok q1 d1 ex1 w) as (_ & _ & E1).
    destruct (argument_generator_outcome env Hok q2 d2 ex2 w) as (_ & _ & E2).
    cbn zeta in *. rewrite E1, E2 in H. apply app_inv_head in H.
    unfold chat_request, generator_prompt in H.
    injection H as Hd Hq.
    try apply string_append_inv_head in Hd.
    try apply string_append_inv_head in Hq.
    apply string_append_inv_tail in Hd. now split.
  - intros a1 ex1 a2 ex2 H.
    destruct (critic_outcome env Hok a1 ex1 w) as (_ & _ & E1).
    destruct (critic_outcome env Hok a2 ex2 w) as (_ & _ & E2).
    cbn zeta in *. rewrite E1, E2 in H. apply app_inv_head in H.
    unfold chat_request, critic_prompt in H.
    now injection H as Ha.
  - intros q1 d1 a1 c1 ex1 q2 d2 a2 c2 ex2 H.
    destruct (refiner_outcome env Hok q1 d1 a1 c1 ex1 w) as (_ & _ & E1).
    destruct (refiner_outcome env Hok q2 d2 a2 c2 ex2 w) as (_ & _ & E2).
    cbn zeta in *. rewrite E1, E2 in H. apply app_inv_head in H.
    unfold chat_request, refiner_prompt in H.
    injection H as Hd Hq Ha Hc.
    try apply string_append_inv_head in Hd.
    try apply string_append_inv_head in Hq.
    apply string_append_inv_tail in Hd. now repeat split.
Qed.

Lemma requests_determine_inputs_witness :
  tracing_ok demo_env /\ "Sunshine is nice." = "Sunshine is nice.".
Proof.
  split; [intros log rt; reflexivity | ].
  apply (requests_determine_inputs demo_env initial_world
           (fun _ _ => eq_refl)) with (ex1 := None) (ex2 := None).
  reflexivity.
Defined.

(** *** Results and the tracing state *)

(** X9: what is computed does not depend on the tracing.  For two worlds
    with the same clock and the same requests already made, whatever runs
    are open, whatever identifiers were drawn and whatever [langsmith_extra]
    is passed, a call of [call_openai], of a wrapper or of [argument_chain]
    or [argument_chain_3] ends the same way (same value or same exception)
    and leaves the same clock and the same requests. *)
Theorem results_ignore_tracing_state (env : Env)
    (ex1 ex2 : option LangsmithExtra) (w1 w2 : World) :
  tracing_ok env ->
  ext w1 = ext w2 ->
  (forall data m t,
      same_outcome (call_openai env data m t ex1 w1)
                   (call_openai env data m t ex2 w2)) /\
  (forall q d,
      same_outcome (argument_generator env q d ex1 w1)
                   (argument_generator env q d ex2 w2)) /\
  (forall a, same_outcome (critic env a ex1 w1) (critic env a ex2 w2)) /\
  (forall q d a c,
      same_outcome (refiner env q d a c ex1 w1)
                   (refiner env q d a c ex2 w2)) /\
  (forall q d,
      same_outcome (argument_chain env q d ex1 w1)
                   (argument_chain env q d ex2 w2)) /\
  (forall q d,
      same_outcome (argument_chain_3 env q d ex1 w1)
                   (argument_chain_3 env q d ex2 w2)).
Proof.
  intros Hok E.
  assert (K : forall A (m1 m2 : M A) (f : Plain A),
             agrees m1 f -> agrees m2 f -> same_outcome (m1 w1) (m2 w2)).
  { intros A m1 m2 f H1 H2. unfold same_outcome.
    pose proof (H1 w1) as P1. pose proof (H2 w2) as P2.
    rewrite E in P1. rewrite <- P2 in P1.
    split; [exact (f_equal fst P1) | exact (f_equal snd P1)]. }
  split; [ | split; [ | split; [ | split; [ | split]]]]; intros.
  - eapply K; now apply call_openai_agrees.
  - eapply K; now apply argument_generator_agrees.
  - eapply K; now apply critic_agrees.
  - eapply K; now apply refiner_agrees.
  - eapply K; now apply argument_chain_agrees.
  - eapply K; now apply argument_chain_3_agrees.
Qed.

Lemma results_ignore_tracing_state_witness :
  tracing_ok demo_env /\
  fst (argument_chain demo_env sunshine_query sunshine_description None
         initial_world)
  = fst (argument_chain demo_env sunshine_query sunshine_description
           (Some {| extra_tags := ["another-tag"]; extra_metadata := [];
                    extra_run_id := Some 7%N |})
           (set_uuids_drawn 40 initial_world)).
Proof.
  split; [intros log rt; reflexivity | ].
  destruct (results_ignore_tracing_state demo_env None
              (Some {| extra_tags := ["another-tag"]; extra_metadata := [];
                       extra_run_id := Some 7%N |})
              initial_world (set_uuids_drawn 40 initial_world)
              (fun _ _ => eq_refl) eq_refl) as (_ & _ & _ & _ & H & _).
  exact (proj1 (H sunshine_query sunshine_description)).
Defined.

(** *** Where a chain's value comes from *)

Lemma plain_chain_value env q d t h r :
  fst (plain_chain env q d (t, h)) = inr r ->
  exists a c,
    completion
      (create env h (chat_request (generator_prompt (now env t) q d)))
    = inr a /\
    completion
      (create env
         (h ++ [chat_request (generator_prompt (now env t) q d)])
         (chat_request (critic_prompt a)))
    = inr c /\
    completion
      (create env
         (h ++ [chat_request (generator_prompt (now env t) q d);
                chat_request (critic_prompt a)])
         (chat_request (refiner_prompt (now env (S t)) q d a c)))
    = inr r.
Proof.
  intros H.
  destruct (completion
              (create env h
                 (chat_request (generator_prompt (now env t) q d))))
    as [e | a] eqn:E1.
  { rewrite (plain_chain_stage1 env q d t h e E1) in H. discriminate. }
  destruct (completion
              (create env
                 (h ++ [chat_request (generator_prompt (now env t) q d)])
                 (chat_request (critic_prompt a))))
    as [e | c] eqn:E2.
  { rewrite (plain_chain_stage2 env q d t h a e E1 E2) in H. discriminate. }
  rewrite (plain_chain_stage3 env q d t h a c E1 E2) in H.
  exists a, c. repeat split; auto.
Qed.

(** X10: a chain returns a value only as the refiner's completion.  When a
    chain variant returns the string [r], the service gave a completion [a]
    to the generator's request, a completion [c] to the critic's request on
    [a], and [r] itself to the refiner's request on [a] and [c]: no value is
    made up when a stage fails. *)
Theorem chain_value_is_refiner_completion (env : Env) (q d : string)
    (ex : option LangsmithExtra) (w : World) (r : string) :
  tracing_ok env ->
  fst (argument_chain env q d ex w) = inr r \/
  first_component (fst (argument_chain2 env q d ex w)) = inr r \/
  fst (argument_chain_3 env q d ex w) = inr r ->
  exists a c,
    let req1 := chat_request (generator_prompt (now env (clock w)) q d) in
    let req2 := chat_request (critic_prompt a) in
    let req3 :=
      chat_request (refiner_prompt (now env (S (clock w))) q d a c) in
    completion (create env (api_calls w) req1) = inr a /\
    completion (create env (api_calls w ++ [req1]) req2) = inr c /\
    completion (create env (api_calls w ++ [req1; req2]) req3) = inr r.
Proof.
  intros Hok H.
  apply plain_chain_value.
  pose proof (argument_chain_agrees env Hok q d ex w) as H1.
  pose proof (argument_chain2_agrees env Hok q d ex w) as H2.
  pose proof (argument_chain_3_agrees env Hok q d ex w) as H3.
  cbn zeta in H2. unfold ext in *.
  destruct H as [H | [H | H]].
  - rewrite <- H1. exact H.
  - rewrite <- H2. exact H.
  - rewrite <- H3. exact H.
Qed.

Lemma chain_value_is_refiner_completion_witness :
  tracing_ok demo_env /\
  exists a c,
    completion
      (create demo_env []
         (chat_request
            (generator_prompt (demo_now 0) sunshine_query
               sunshine_description)))
    = inr a /\
    completion
      (create demo_env
         [chat_request
            (generator_prompt (demo_now 0) sunshine_query
               sunshine_description)]
         (chat_request (critic_prompt a)))
    = inr c /\
    completion
      (create demo_env
         [chat_request
            (generator_prompt (demo_now 0) sunshine_query
               sunshine_description);
          chat_request (critic_prompt a)]
         (chat_request
            (refiner_prompt (demo_now 1) sunshine_query sunshine_description
               a c)))
    = inr "In moderation, sunshine helps the body make vitamin D.".
Proof.
  split; [intros log rt; reflexivity | ].
  apply (chain_value_is_refiner_completion demo_env sunshine_query
           sunshine_description None initial_world
           "In moderation, sunshine helps the body make vitamin D."
           (fun _ _ => eq_refl)).
  left. reflexivity.
Defined.

(** *** The returned identifier and the runs of the trace *)


